(** * The NMS dispatch wrappers of mmdet/ops/nms/nms_wrapper.py

    A shallow embedding of the four entry points [nms], [soft_nms],
    [oks_nms] and [oks_nms_vis].  The compiled suppression kernels the
    wrappers import ([nms_cpu], [nms_cuda], [soft_nms_cpu], [oks_nms_cpu],
    [oks_nms_cuda], [oks_nms_py], [oks_nms_vis_cuda]) are not part of the
    Python source: a wrapper is embedded as a program that issues kernel
    calls, and a program is run against an arbitrary handler that answers
    them.  Running a program yields its outcome together with the list of
    kernel calls it made, in order.  Where a statement is about what the
    kernels return, the kernels are those of the specification of the
    suppression engines (module [suppression]).

    Scope of the model.  Candidate sets are two-dimensional containers of
    a floating element type, one row per candidate, the score in the last
    column; any other Python object is represented by the name of its
    type.  Moving a tensor to a device always succeeds.  The per-keypoint
    sigmas are a list of Python floats.  Optional parameters are passed
    explicitly; their defaults are recorded next to the entry points. *)

From Stdlib Require Import ZArith String List.
From Stdlib Require Import Floats.SpecFloat.
From stdpp Require Import base option list strings gmap.

Local Open Scope Z_scope.
Local Open Scope string_scope.

(** ** Scalars

    Python floats are IEEE binary64 values; array elements are binary16,
    binary32 or binary64 values.  All of them are represented by
    [spec_float]; every rounding is written out. *)

Definition float : Type := spec_float.

Inductive dtype : Type := float16 | float32 | float64.

#[global] Instance dtype_eq_dec : EqDecision dtype.
Proof. solve_decision. Defined.

Definition prec_of (d : dtype) : Z :=
  match d with float16 => 11 | float32 => 24 | float64 => 53 end.

Definition emax_of (d : dtype) : Z :=
  match d with float16 => 16 | float32 => 128 | float64 => 1024 end.

(** Conversion of one element to the format [d], round to nearest even,
    overflow to infinity. *)
Definition cast (d : dtype) (x : float) : float :=
  match x with
  | S754_finite s m e => binary_round (prec_of d) (emax_of d) s m e
  | _ => x
  end.

(** The Python float [10.0], and Python's true division on floats. *)
Definition ten : float := Eval vm_compute in binary_normalize 53 1024 10 0 false.

Definition truediv (x y : float) : float := SFdiv 53 1024 x y.

(** ** Containers *)

Inductive device : Type := cpu | cuda (index : Z).

(** A two-dimensional [np.ndarray]: one row per candidate. *)
Record ndarray : Type := { a_dtype : dtype; a_rows : list (list float) }.

(** A two-dimensional [torch.Tensor] of a floating dtype. *)
Record Tensor : Type :=
  { t_device : device; t_dtype : dtype; t_rows : list (list float) }.

(** A one-dimensional [torch.long] tensor. *)
Record LongTensor : Type := { l_device : device; l_data : list Z }.

(** What a caller can pass as the candidate set: a tensor, an array, or a
    Python object of any other type, given by the text [format] prints
    for [type(dets)]. *)
Inductive object : Type :=
| tensor (t : Tensor)
| array (a : ndarray)
| other (type_name : string).

(** The returned indices: a long tensor, or a one-dimensional integer
    array. *)
Inductive index_object : Type :=
| long_tensor (l : LongTensor)
| long_array (l : list Z).

Inductive exception : Type :=
| TypeError (msg : string)
| ValueError (msg : string)
| IndexError
| AttributeError (msg : string)
| RuntimeError (msg : string).

Inductive result (A : Type) : Type :=
| Ok (a : A)
| Raised (e : exception).
Arguments Ok {A} a.
Arguments Raised {A} e.

(** ** The kernels, as calls

    One constructor per imported kernel function, carrying the arguments
    of the call; the index is the type of the value the kernel returns. *)
Inductive backend : Type -> Type :=
| nms_cpu_nms (dets : Tensor) (iou_thr : float) : backend LongTensor
| nms_cuda_nms (dets : Tensor) (iou_thr : float) : backend LongTensor
| soft_nms_cpu (dets : ndarray) (iou_thr : float) (method : Z)
    (sigma min_score : float) : backend (ndarray * list Z)
| oks_nms_cuda_oks_nms (kpts : Tensor) (iou_thr : float)
    (sigmas : list float) : backend LongTensor
| oks_nms_cpu_oks_nms (kpts : Tensor) (iou_thr : float)
    (sigmas : list float) : backend LongTensor
| oks_nms_py_oks_nms (kpts : ndarray) (iou_thr : float)
    (sigmas : list float) : backend (list Z)
| oks_nms_vis_cuda_oks_nms (kpts : Tensor) (iou_thr vis_thr : float)
    (sigmas : list float) : backend LongTensor.

Inductive call : Type :=
| Called : forall X : Type, backend X -> call.
Arguments Called {X} b.

(** ** Programs over kernel calls *)

Inductive Prog (A : Type) : Type :=
| Ret (a : A)
| Throw (e : exception)
| Call : forall X : Type, backend X -> (X -> Prog A) -> Prog A.
Arguments Ret {A} a.
Arguments Throw {A} e.
Arguments Call {A X} b k.

Fixpoint bind {A B : Type} (p : Prog A) (f : A -> Prog B) : Prog B :=
  match p with
  | Ret a => f a
  | Throw e => Throw e
  | Call b k => Call b (fun x => bind (k x) f)
  end.

#[global] Instance Prog_ret : MRet Prog := @Ret.
#[global] Instance Prog_bind : MBind Prog := fun A B f p => bind p f.

Definition invoke {X : Type} (b : backend X) : Prog X := Call b Ret.

(** A handler answers each kernel call, possibly by raising, and may read
    and update a world [W] (device state, random seeds, clocks) that the
    wrappers themselves never touch. *)
Definition handler (W : Type) : Type :=
  forall X : Type, backend X -> W -> result X * W.

Record run (A W : Type) : Type :=
  { outcome : result A; trace : list call; world : W }.
Arguments outcome {A W} r.
Arguments trace {A W} r.
Arguments world {A W} r.

Fixpoint exec {A W : Type} (h : handler W) (p : Prog A) (w : W) : run A W :=
  match p with
  | Ret a => {| outcome := Ok a; trace := []; world := w |}
  | Throw e => {| outcome := Raised e; trace := []; world := w |}
  | Call b k =>
      match h _ b w with
      | (Ok x, w') =>
          let r := exec h (k x) w' in
          {| outcome := outcome r; trace := Called b :: trace r;
             world := world r |}
      | (Raised e, w') =>
          {| outcome := Raised e; trace := [Called b]; world := w' |}
      end
  end.

(** ** The torch and numpy operations the wrappers use *)

Module torch.

(** [torch.from_numpy(a)]: a host tensor over the same elements. *)
Definition from_numpy (a : ndarray) : Tensor :=
  {| t_device := cpu; t_dtype := a_dtype a; t_rows := a_rows a |}.

(** [t.to(device)] *)
Definition to (t : Tensor) (d : device) : Tensor :=
  {| t_device := d; t_dtype := t_dtype t; t_rows := t_rows t |}.

(** [t.shape[0]] *)
Definition shape0 (t : Tensor) : nat := length (t_rows t).

(** [t.is_cuda] *)
Definition is_cuda (t : Tensor) : bool :=
  match t_device t with cuda _ => true | cpu => false end.

(** [t.new_zeros(n, dtype=torch.long)]: on the device of [t]. *)
Definition new_zeros_long (t : Tensor) (n : nat) : LongTensor :=
  {| l_device := t_device t; l_data := replicate n 0 |}.

(** [inds.cpu().numpy()] *)
Definition long_numpy (l : LongTensor) : list Z := l_data l.

(** [t.detach().cpu().numpy()] and [t.cpu().numpy()] *)
Definition numpy (t : Tensor) : ndarray :=
  {| a_dtype := t_dtype t; a_rows := t_rows t |}.

(** [torch.FloatTensor(values)]: a host vector of binary32 values. *)
Definition FloatTensor (values : list float) : list float :=
  map (cast float32) values.

(** [v.cpu().numpy()] on such a vector: the same binary32 values. *)
Definition vector_numpy (v : list float) : list float := v.

End torch.

Module np.

(** [a.astype(d)]: the elements are converted when the dtype changes. *)
Definition astype (a : ndarray) (d : dtype) : ndarray :=
  if decide (a_dtype a = d) then a
  else {| a_dtype := d; a_rows := map (map (cast d)) (a_rows a) |}.

End np.

(** [t.new_tensor(a)]: a tensor of the dtype and on the device of [t]
    holding the data of the array [a]. *)
Definition new_tensor (t : Tensor) (a : ndarray) : Tensor :=
  {| t_device := t_device t; t_dtype := t_dtype t;
     t_rows := a_rows (np.astype a (t_dtype t)) |}.

(** [t.new_tensor(inds, dtype=torch.long)] *)
Definition new_tensor_long (t : Tensor) (inds : list Z) : LongTensor :=
  {| l_device := t_device t; l_data := inds |}.

(** Integer-array indexing of the first axis, as numpy and torch do it:
    an index [i] with [-n <= i < 0] counts from the end, an index outside
    [-n, n) raises IndexError. *)
Definition normalize_index (n : nat) (i : Z) : option nat :=
  if bool_decide (0 <= i < Z.of_nat n) then Some (Z.to_nat i)
  else if bool_decide (- Z.of_nat n <= i < 0) then Some (Z.to_nat (i + Z.of_nat n))
  else None.

Definition take_rows (rows : list (list float)) (inds : list Z)
  : option (list (list float)) :=
  mapM (fun i => j ← normalize_index (length rows) i; rows !! j) inds.

Definition index_data (inds : index_object) : list Z :=
  match inds with
  | long_tensor l => l_data l
  | long_array l => l
  end.

(** [dets[inds, :]]: the result is of the kind, dtype and device of
    [dets]. *)
Definition getitem (dets : object) (inds : index_object) : Prog object :=
  match dets with
  | tensor t =>
      match take_rows (t_rows t) (index_data inds) with
      | Some rows =>
          Ret (tensor {| t_device := t_device t; t_dtype := t_dtype t;
                         t_rows := rows |})
      | None => Throw IndexError
      end
  | array a =>
      match take_rows (a_rows a) (index_data inds) with
      | Some rows => Ret (array {| a_dtype := a_dtype a; a_rows := rows |})
      | None => Throw IndexError
      end
  | other ty => Throw (TypeError ("'" ++ ty ++ "' object is not subscriptable"))
  end.

(** ** The entry points *)

(** [nms(dets, iou_thr, device_id=None)], lines 10-63. *)
Definition nms (dets : object) (iou_thr : float) (device_id : option Z)
  : Prog (object * index_object) :=
  '(is_numpy, dets_th) ←
    match dets with
    | tensor t => mret (false, t)
    | array a =>
        let device := match device_id with
                      | None => cpu
                      | Some id => cuda id
                      end in
        mret (true, torch.to (torch.from_numpy a) device)
    | other ty =>
        Throw (TypeError
          ("dets must be either a Tensor or numpy array, but got " ++ ty))
    end;
  inds ←
    (if Nat.eqb (torch.shape0 dets_th) 0
     then mret (torch.new_zeros_long dets_th 0)
     else if torch.is_cuda dets_th
          then invoke (nms_cuda_nms dets_th iou_thr)
          else invoke (nms_cpu_nms dets_th iou_thr));
  let inds := if is_numpy : bool then long_array (torch.long_numpy inds)
              else long_tensor inds in
  kept ← getitem dets inds;
  mret (kept, inds).

(** [soft_nms(dets, iou_thr, method='linear', sigma=0.5, min_score=1e-3)],
    lines 66-104. *)
Definition method_codes : gmap string Z :=
  {[ "linear" := 1; "gaussian" := 2 ]}.

Definition soft_nms (dets : object) (iou_thr : float) (method : string)
    (sigma min_score : float) : Prog (object * index_object) :=
  '(is_tensor, dets_np) ←
    match dets with
    | tensor t => mret (true, torch.numpy t)
    | array a => mret (false, a)
    | other ty =>
        Throw (TypeError
          ("dets must be either a Tensor or numpy array, but got " ++ ty))
    end;
  match method_codes !! method with
  | None => Throw (ValueError ("Invalid method for SoftNMS: " ++ method))
  | Some code =>
      '(new_dets, inds) ←
        invoke (soft_nms_cpu dets_np iou_thr code sigma min_score);
      if is_tensor : bool
      then match dets with
           | tensor t =>
               mret (tensor (new_tensor t new_dets),
                     long_tensor (new_tensor_long t inds))
           | _ => Throw (AttributeError "new_tensor")
           end
      else mret (array (np.astype new_dets float32), long_array inds)
  end.

(** The defaults of the optional parameters. *)
Definition default_method : string := "linear".
Definition default_sigma : float :=
  Eval vm_compute in binary_normalize 53 1024 1 (-1) false.
Definition default_min_score : float :=
  Eval vm_compute in
    SFdiv 53 1024 (binary_normalize 53 1024 1 0 false)
      (binary_normalize 53 1024 1000 0 false).
Definition default_vis_thr : float :=
  Eval vm_compute in SFdiv 53 1024 (binary_normalize 53 1024 1 0 false) ten.

(** [oks_nms(kpts, iou_thr, sigmas, device_id=None)], the first
    definition, lines 107-163. *)
Definition oks_nms_first (kpts : object) (iou_thr : float)
    (sigmas : list float) (device_id : option Z)
  : Prog (object * index_object) :=
  let sigmas := map (fun s => truediv s ten) sigmas in
  let sigmas := torch.FloatTensor sigmas in
  '(is_numpy, kpts_th) ←
    match kpts with
    | tensor t => mret (false, t)
    | array a =>
        let device := match device_id with
                      | None => cpu
                      | Some id => cuda id
                      end in
        mret (true, torch.to (torch.from_numpy a) device)
    | other ty =>
        Throw (TypeError
          ("kpts must be either a Tensor or numpy array, but got " ++ ty))
    end;
  inds ←
    (if Nat.eqb (torch.shape0 kpts_th) 0
     then mret (torch.new_zeros_long kpts_th 0)
     else if torch.is_cuda kpts_th
          then invoke (oks_nms_cuda_oks_nms kpts_th iou_thr sigmas)
          else
            inds ← invoke (oks_nms_cpu_oks_nms kpts_th iou_thr sigmas);
            inds_py ← invoke (oks_nms_py_oks_nms (torch.numpy kpts_th) iou_thr
                                (torch.vector_numpy sigmas));
            mret inds);
  let inds := if is_numpy : bool then long_array (torch.long_numpy inds)
              else long_tensor inds in
  kept ← getitem kpts inds;
  mret (kept, inds).

(** [oks_nms(kpts, iou_thr, sigmas, device_id=None)], the second
    definition, lines 166-222: the one the module exports. *)
Definition oks_nms (kpts : object) (iou_thr : float)
    (sigmas : list float) (device_id : option Z)
  : Prog (object * index_object) :=
  let sigmas := map (fun s => truediv s ten) sigmas in
  let sigmas := torch.FloatTensor sigmas in
  '(is_numpy, kpts_th) ←
    match kpts with
    | tensor t => mret (false, t)
    | array a =>
        let device := match device_id with
                      | None => cpu
                      | Some id => cuda id
                      end in
        mret (true, torch.to (torch.from_numpy a) device)
    | other ty =>
        Throw (TypeError
          ("kpts must be either a Tensor or numpy array, but got " ++ ty))
    end;
  inds ←
    (if Nat.eqb (torch.shape0 kpts_th) 0
     then mret (torch.new_zeros_long kpts_th 0)
     else if torch.is_cuda kpts_th
          then invoke (oks_nms_cuda_oks_nms kpts_th iou_thr sigmas)
          else
            inds ← invoke (oks_nms_cpu_oks_nms kpts_th iou_thr sigmas);
            inds_py ← invoke (oks_nms_py_oks_nms (torch.numpy kpts_th) iou_thr
                                (torch.vector_numpy sigmas));
            mret inds);
  let inds := if is_numpy : bool then long_array (torch.long_numpy inds)
              else long_tensor inds in
  kept ← getitem kpts inds;
  mret (kept, inds).

(** [oks_nms_vis(kpts, iou_thr, sigmas, vis_thr=0.1, device_id=None)],
    lines 225-281. *)
Definition oks_nms_vis (kpts : object) (iou_thr : float)
    (sigmas : list float) (vis_thr : float) (device_id : option Z)
  : Prog (object * index_object) :=
  let sigmas := map (fun s => truediv s ten) sigmas in
  let sigmas := torch.FloatTensor sigmas in
  '(is_numpy, kpts_th) ←
    match kpts with
    | tensor t => mret (false, t)
    | array a =>
        let device := match device_id with
                      | None => cpu
                      | Some id => cuda id
                      end in
        mret (true, torch.to (torch.from_numpy a) device)
    | other ty =>
        Throw (TypeError
          ("kpts must be either a Tensor or numpy array, but got " ++ ty))
    end;
  inds ←
    (if Nat.eqb (torch.shape0 kpts_th) 0
     then mret (torch.new_zeros_long kpts_th 0)
     else if torch.is_cuda kpts_th
          then invoke (oks_nms_vis_cuda_oks_nms kpts_th iou_thr vis_thr sigmas)
          else
            inds ← invoke (oks_nms_cpu_oks_nms kpts_th iou_thr sigmas);
            inds_py ← invoke (oks_nms_py_oks_nms (torch.numpy kpts_th) iou_thr
                                (torch.vector_numpy sigmas));
            mret inds);
  let inds := if is_numpy : bool then long_array (torch.long_numpy inds)
              else long_tensor inds in
  kept ← getitem kpts inds;
  mret (kept, inds).

(** ** Vocabulary of the statements *)

(** The [isinstance] test every entry point starts with. *)
Definition is_container (dets : object) : bool :=
  match dets with
  | tensor _ | array _ => true
  | other _ => false
  end.

(** The candidates of a container, one row each. *)
Definition candidates (dets : object) : list (list float) :=
  match dets with
  | tensor t => t_rows t
  | array a => a_rows a
  | other _ => []
  end.

Inductive family : Type := torch_family | numpy_family | no_family.

Definition family_of (dets : object) : family :=
  match dets with
  | tensor _ => torch_family
  | array _ => numpy_family
  | other _ => no_family
  end.

Definition index_family_of (inds : index_object) : family :=
  match inds with
  | long_tensor _ => torch_family
  | long_array _ => numpy_family
  end.

Definition dtype_of (dets : object) : option dtype :=
  match dets with
  | tensor t => Some (t_dtype t)
  | array a => Some (a_dtype a)
  | other _ => None
  end.

(** Where a kernel executes. *)
Inductive side : Type := host | accelerator.

Definition backend_side (c : call) : side :=
  match c with
  | Called b =>
      match b with
      | nms_cpu_nms _ _ => host
      | nms_cuda_nms _ _ => accelerator
      | soft_nms_cpu _ _ _ _ _ => host
      | oks_nms_cuda_oks_nms _ _ _ => accelerator
      | oks_nms_cpu_oks_nms _ _ _ => host
      | oks_nms_py_oks_nms _ _ _ => host
      | oks_nms_vis_cuda_oks_nms _ _ _ _ => accelerator
      end
  end.

Definition device_side (d : device) : side :=
  match d with cpu => host | cuda _ => accelerator end.

(** The side a candidate set is resident on when the kernels receive it:
    a tensor stays on its own device, an array is moved to the device that
    device_id names, and stays on the host without one. *)
Definition residency (dets : object) (device_id : option Z) : side :=
  match dets with
  | tensor t => device_side (t_device t)
  | array _ => match device_id with None => host | Some _ => accelerator end
  | other _ => host
  end.

(** The per-keypoint constants an OKS kernel call carries. *)
Definition call_sigmas (c : call) : option (list float) :=
  match c with
  | Called b =>
      match b with
      | oks_nms_cuda_oks_nms _ _ s => Some s
      | oks_nms_cpu_oks_nms _ _ s => Some s
      | oks_nms_py_oks_nms _ _ s => Some s
      | oks_nms_vis_cuda_oks_nms _ _ _ s => Some s
      | _ => None
      end
  end.

(** The visibility threshold a kernel call carries, if it carries one. *)
Definition call_vis_thr (c : call) : option float :=
  match c with
  | Called b =>
      match b with
      | oks_nms_vis_cuda_oks_nms _ _ v _ => Some v
      | _ => None
      end
  end.

(** Indices that address rows of an [n]-row input, counted from 0. *)
Definition in_bounds (n : nat) (inds : list Z) : Prop :=
  Forall (fun i => 0 <= i < Z.of_nat n) inds.

(** Two candidates that agree in every column but possibly the last one,
    the score. *)
Definition same_but_score (r r' : list float) : Prop :=
  length r = length r' /\ removelast r = removelast r'.

(** What the wrappers rely on from the kernels: an index kernel answers
    indices that address rows of the tensor it was given; soft_nms_cpu
    answers rows of the dtype of its input, each being the input row at
    the index answered with it, the score apart. *)
Definition kernel_contract {X : Type} (b : backend X) : X -> Prop :=
  match b in backend X return X -> Prop with
  | nms_cpu_nms t _ => fun l => in_bounds (torch.shape0 t) (l_data l)
  | nms_cuda_nms t _ => fun l => in_bounds (torch.shape0 t) (l_data l)
  | soft_nms_cpu a _ _ _ _ => fun '(new_dets, inds) =>
      a_dtype new_dets = a_dtype a /\
      Forall2 (fun row i =>
                 0 <= i < Z.of_nat (length (a_rows a)) /\
                 exists r, a_rows a !! Z.to_nat i = Some r /\ same_but_score r row)
        (a_rows new_dets) inds
  | oks_nms_cuda_oks_nms t _ _ => fun l => in_bounds (torch.shape0 t) (l_data l)
  | oks_nms_cpu_oks_nms t _ _ => fun l => in_bounds (torch.shape0 t) (l_data l)
  | oks_nms_py_oks_nms _ _ _ => fun _ => True
  | oks_nms_vis_cuda_oks_nms t _ _ _ =>
      fun l => in_bounds (torch.shape0 t) (l_data l)
  end.



(** A kernel answer that keeps only the first candidate; the world counts
    the kernel calls made so far.  Used to run the entry points on concrete
    inputs. *)
Definition first_index (n : nat) : list Z :=
  match n with O => [] | S _ => [0] end.

Definition keep_first : handler nat := fun X b w =>
  match b in backend X return result X * nat with
  | nms_cpu_nms d _ =>
      (Ok {| l_device := t_device d;
             l_data := first_index (torch.shape0 d) |}, S w)
  | nms_cuda_nms d _ =>
      (Ok {| l_device := t_device d;
             l_data := first_index (torch.shape0 d) |}, S w)
  | soft_nms_cpu d _ _ _ _ =>
      (Ok ({| a_dtype := a_dtype d; a_rows := take 1 (a_rows d) |},
           first_index (length (a_rows d))), S w)
  | oks_nms_cuda_oks_nms d _ _ =>
      (Ok {| l_device := t_device d;
             l_data := first_index (torch.shape0 d) |}, S w)
  | oks_nms_cpu_oks_nms d _ _ =>
      (Ok {| l_device := t_device d;
             l_data := first_index (torch.shape0 d) |}, S w)
  | oks_nms_py_oks_nms d _ _ =>
      (Ok (first_index (length (a_rows d))), S w)
  | oks_nms_vis_cuda_oks_nms d _ _ _ =>
      (Ok {| l_device := t_device d;
             l_data := first_index (torch.shape0 d) |}, S w)
  end.

(** The binary64 value nearest to 0.1 (not a binary32 value), and one
    candidate box with score 0.1 built from it. *)
Definition tenth : float := S754_finite false 7205759403792794 (-56).

Definition one_box : list (list float) := [[tenth; tenth; tenth; tenth; tenth]].

(** The binary32 value nearest to 0.1. *)
Definition tenth32 : float := S754_finite false 13421773 (-27).

Definition one_box32 : list (list float) :=
  [[tenth32; tenth32; tenth32; tenth32; tenth32]].

(** The smallest positive binary64 value: its quotient by 10 rounds to
    zero, as does the quotient of zero. *)
Definition tiny : float := S754_finite false 1 (-1074).

(** * The suppression kernels

    The kernels are not part of the Python source.  Where a statement is
    about what they return, they are taken from the specification of the
    suppression engines: the greedy selection of hard NMS, the loop and
    the two decays of soft-NMS, and OKS-NMS.  The measures of section 4.1
    enter as parameters, and so does what the specification leaves open:
    the overlap [iou] of two boxes in a given element format, the
    similarity [oks] of two keypoint candidates (whose area normaliser
    and row layout are not fixed) and its visibility-gated form, the
    exponential, and the test that a row has the keypoint count of the
    sigmas.  The statements hold whatever these compute. *)

Module suppression.

Section engines.

Variable iou : dtype -> list float -> list float -> float.
Variable oks : list float -> list float -> list float -> float.
Variable oks_gated : float -> list float -> list float -> list float -> float.
Variable exp : float -> float.
Variable keypoint_shape : list float -> list float -> bool.

(** Modelled from the spec: a candidate under consideration, its index
    in the input and its row. *)
Definition entry : Type := (nat * list float)%type.

(** Modelled from the spec: the arithmetic of the decay functions
    (section 4.3), on elements of the format [d]. *)
Definition zero : float := S754_zero false.

Definition one (d : dtype) : float :=
  binary_normalize (prec_of d) (emax_of d) 1 0 false.

Definition sub (d : dtype) (x y : float) : float :=
  SFsub (prec_of d) (emax_of d) x y.

Definition mul (d : dtype) (x y : float) : float :=
  SFmul (prec_of d) (emax_of d) x y.

Definition div (d : dtype) (x y : float) : float :=
  SFdiv (prec_of d) (emax_of d) x y.

(** Modelled from the spec: the score of a candidate (section 3); it is
    the last column of the candidate's row. *)
Definition score (row : list float) : float := default zero (last row).

(** Modelled from the spec: a score rescaled in place (section 4.3); the
    other columns of the row stay. *)
Definition with_score (row : list float) (s : float) : list float :=
  match row with
  | [] => []
  | _ :: _ => removelast row ++ [s]
  end.

(** Modelled from the spec: the candidates with their original indices
    (section 6: 0-based indices into the input). *)
Fixpoint number (i : nat) (rows : list (list float)) : list entry :=
  match rows with
  | [] => []
  | row :: rows' => (i, row) :: number (S i) rows'
  end.

(** Modelled from the spec: the stable sort by descending score of
    section 4.2, ties in the original input order.  A candidate is put
    before the first one whose score is not higher than its own. *)
Fixpoint insert_by_score (c : entry) (sorted : list entry) : list entry :=
  match sorted with
  | [] => [c]
  | c' :: rest =>
      if SFltb (score c.2) (score c'.2)
      then c' :: insert_by_score c rest
      else c :: sorted
  end.

Definition sort_by_score (l : list entry) : list entry :=
  foldr insert_by_score [] l.

(** Modelled from the spec: the greedy loop of section 4.2.  The
    highest-scored remaining candidate is kept, every remaining candidate
    whose overlap with it exceeds the threshold is removed, until no
    candidate remains.  [fuel] bounds the number of rounds; the number of
    candidates is enough. *)
Fixpoint suppress (measure : list float -> list float -> float) (thr : float)
    (fuel : nat) (sorted : list entry) : list entry :=
  match fuel, sorted with
  | S fuel', top :: rest =>
      top :: suppress measure thr fuel'
               (List.filter (fun c => negb (SFltb thr (measure top.2 c.2))) rest)
  | _, _ => []
  end.

(** Modelled from the spec: hard NMS (section 4.2), the kept indices in
    descending score order. *)
Definition hard_nms (measure : list float -> list float -> float) (thr : float)
    (rows : list (list float)) : list Z :=
  map (fun c : entry => Z.of_nat c.1)
    (suppress measure thr (length rows) (sort_by_score (number 0 rows))).

(** Modelled from the spec: the decay functions of section 4.3.  Linear
    (code 1): the score times (1 - iou) if iou exceeds the threshold,
    else unchanged.  Gaussian (code 2): the score times
    exp(-iou^2 / sigma), unconditionally. *)
Definition decay (d : dtype) (method : Z) (iou_thr sigma : float)
    (s overlap : float) : float :=
  if Z.eqb method 1
  then if SFltb iou_thr overlap then mul d s (sub d (one d) overlap) else s
  else mul d s (exp (SFopp (div d (mul d overlap overlap) sigma))).

(** Modelled from the spec: the loop of soft-NMS (section 4.3).  The
    candidates are re-sorted at every round; the top one is finalised;
    the scores of the others are rescaled by the decay; those whose score
    has fallen below min_score are discarded for good. *)
Fixpoint soft_loop (d : dtype) (method : Z) (iou_thr sigma min_score : float)
    (fuel : nat) (remaining : list entry) : list entry :=
  match fuel with
  | O => []
  | S fuel' =>
      match sort_by_score remaining with
      | [] => []
      | top :: others =>
          let decayed :=
            map (fun c : entry =>
                   (c.1, with_score c.2
                           (decay d method iou_thr sigma (score c.2)
                              (iou d top.2 c.2))))
              others in
          let alive :=
            List.filter (fun c : entry => negb (SFltb (score c.2) min_score))
              decayed in
          top :: soft_loop d method iou_thr sigma min_score fuel' alive
      end
  end.

(** Modelled from the spec: soft-NMS (section 4.3), the kept candidates
    with their decayed scores and their original indices, in the order
    they were finalised.  The thresholds are taken in the element format
    of the candidates. *)
Definition soft_nms_kernel (a : ndarray) (iou_thr : float) (method : Z)
    (sigma min_score : float) : ndarray * list Z :=
  let d := a_dtype a in
  let kept :=
    soft_loop d method (cast d iou_thr) (cast d sigma) (cast d min_score)
      (length (a_rows a)) (number 0 (a_rows a)) in
  ({| a_dtype := a_dtype a; a_rows := map snd kept |},
   map (fun c : entry => Z.of_nat c.1) kept).

(** Modelled from the spec: hard NMS on boxes (section 4.2) with the
    overlap of boxes as the measure, the threshold taken in the element
    format of the candidates. *)
Definition nms_kernel (t : Tensor) (iou_thr : float) : list Z :=
  hard_nms (iou (t_dtype t)) (cast (t_dtype t) iou_thr) (t_rows t).

(** Modelled from the spec: OKS-NMS (section 4.4), the greedy structure
    of hard NMS with the keypoint similarity as the measure; a row of the
    wrong keypoint count is rejected (section 7). *)
Definition oks_kernel (measure : list float -> list float -> float)
    (sigmas : list float) (d : dtype) (rows : list (list float))
    (iou_thr : float) : result (list Z) :=
  if forallb (keypoint_shape sigmas) rows
  then Ok (hard_nms measure (cast d iou_thr) rows)
  else Raised (ValueError "keypoint shape mismatch").

(** Modelled from the spec: the kept indices as an index tensor on the
    device of the candidates. *)
Definition on_device (d : device) (inds : result (list Z)) : result LongTensor :=
  match inds with
  | Ok l => Ok {| l_device := d; l_data := l |}
  | Raised e => Raised e
  end.

(** Modelled from the spec: what each kernel answers.  The accelerator
    kernels give the kept set and the ordering of the reference algorithm
    (section 4.2); an unknown decay method is rejected (section 7). *)
Definition answer {X : Type} (b : backend X) : result X :=
  match b in backend X return result X with
  | nms_cpu_nms t thr => on_device (t_device t) (Ok (nms_kernel t thr))
  | nms_cuda_nms t thr => on_device (t_device t) (Ok (nms_kernel t thr))
  | soft_nms_cpu a thr method sigma min_score =>
      if Z.eqb method 1 || Z.eqb method 2
      then Ok (soft_nms_kernel a thr method sigma min_score)
      else Raised (ValueError "unknown decay method")
  | oks_nms_cuda_oks_nms t thr sigmas =>
      on_device (t_device t)
        (oks_kernel (oks sigmas) sigmas (t_dtype t) (t_rows t) thr)
  | oks_nms_cpu_oks_nms t thr sigmas =>
      on_device (t_device t)
        (oks_kernel (oks sigmas) sigmas (t_dtype t) (t_rows t) thr)
  | oks_nms_py_oks_nms a thr sigmas =>
      oks_kernel (oks sigmas) sigmas (a_dtype a) (a_rows a) thr
  | oks_nms_vis_cuda_oks_nms t thr vis_thr sigmas =>
      on_device (t_device t)
        (oks_kernel (oks_gated vis_thr sigmas) sigmas (t_dtype t) (t_rows t)
           thr)
  end.


End engines.

End suppression.

Arguments suppression.hard_nms : simpl never.
Arguments suppression.nms_kernel : simpl never.
Arguments suppression.oks_kernel : simpl never.
Arguments suppression.soft_nms_kernel : simpl never.

(** The candidate sets that are valid for soft_nms: a tensor, or an
    array of float32.  soft_nms gives the element type float32 to every
    array it returns (line 104); it is the element type of the array in
    its docstring's example (lines 69-74). *)
Definition soft_nms_valid (dets : object) : Prop :=
  match dets with
  | array a => a_dtype a = float32
  | _ => True
  end.

(** Kernels whose soft_nms_cpu answers on float32 candidates only, and
    raises on candidates of another element type. *)
Definition float32_kernel {W : Type} (h : handler W) : Prop :=
  forall (a : ndarray) (iou_thr : float) (method : Z) (sigma min_score : float)
         (w : W) (x : ndarray * list Z),
    (h _ (soft_nms_cpu a iou_thr method sigma min_score) w).1 = Ok x ->
    a_dtype a = float32.

(** [keep_first], with a soft_nms_cpu that rejects candidates of another
    element type than float32. *)
Definition keep_first_float32 : handler nat := fun X b w =>
  match b in backend X return result X * nat with
  | soft_nms_cpu d iou_thr method sigma min_score =>
      if decide (a_dtype d = float32)
      then keep_first _ (soft_nms_cpu d iou_thr method sigma min_score) w
      else (Raised (ValueError "Buffer dtype mismatch"), S w)
  | b' => keep_first _ b' w
  end.

(** The binary32 value 1.0: the quotient of the sigma 10.0 by 10. *)
Definition unit32 : float := S754_finite false 8388608 (-23).


(** * The array transforms of mmdet/datasets/pipelines/transforms.py

    The methods embedded here are those that compute on annotations and
    on configuration only: the scale selection of [Resize],
    [RandomFlip.bbox_flip], [RandomFlip.kpts_flip],
    [RandomFlip.poly_mask_flip] and [Albu.mapper].  A raised exception is
    a value of [res]; the draws of numpy's random generator are answered
    by a generator passed in. *)

Module transforms.

Inductive error : Type :=
| AssertionError
| KeyError (key : string)
| IndexError
| ValueError (msg : string)
| AttributeError (msg : string)
| TypeError (msg : string)
| OverflowError
| NotImplementedError.

Inductive res (A : Type) : Type :=
| Done (a : A)
| Fail (e : error).
Arguments Done {A} a.
Arguments Fail {A} e.

#[global] Instance res_ret : MRet res := @Done.
#[global] Instance res_bind : MBind res := fun A B f r =>
  match r with
  | Done a => f a
  | Fail e => Fail e
  end.

(** The double quote that the messages put around a value. *)
Definition double_quote : string :=
  String (Ascii.Ascii false true false false false true false false) EmptyString.

(** [t[i]] on a tuple of ints, [i >= 0]. *)
Definition tuple_item (t : list Z) (i : nat) : res Z :=
  match t !! i with
  | Some x => Done x
  | None => Fail IndexError
  end.

(** [l[i]] on a list, for any int [i]: a negative index counts from the
    end. *)
Definition list_item {A : Type} (l : list A) (i : Z) : res A :=
  let n := Z.of_nat (length l) in
  match (if (0 <=? i)%Z then l !! Z.to_nat i
         else if (- n <=? i)%Z then l !! Z.to_nat (n + i)
         else None) with
  | Some x => Done x
  | None => Fail IndexError
  end.

(** Arithmetic of an array of element type [d] with a Python int: the
    int is converted to [d] and the operation is rounded to [d]. *)
Definition of_int (d : dtype) (z : Z) : float :=
  binary_normalize (prec_of d) (emax_of d) z 0 false.

Definition sub (d : dtype) (x y : float) : float :=
  SFsub (prec_of d) (emax_of d) x y.

(** [size - x - 1] *)
Definition mirror (d : dtype) (size : Z) (x : float) : float :=
  sub d (sub d (of_int d size) x) (of_int d 1).

(** [l[start::step]]: the elements at positions [start], [start + step],
    ...; [cnt] counts down to the next position taken. *)
Fixpoint every {A : Type} (step cnt : nat) (l : list A) : list A :=
  match l with
  | [] => []
  | x :: l' =>
      match cnt with
      | O => x :: every step (step - 1) l'
      | S c => every step c l'
      end
  end.

(** [l[start::step] = vals], for [vals] of the length of the slice; numpy
    raises ValueError when the lengths differ. *)
Fixpoint assign_every {A : Type} (step cnt : nat) (l vals : list A)
  : res (list A) :=
  match l with
  | [] =>
      match vals with
      | [] => Done []
      | _ :: _ => Fail (ValueError "could not broadcast input array")
      end
  | x :: l' =>
      match cnt with
      | O =>
          match vals with
          | v :: vals' => l'' ← assign_every step (step - 1) l' vals'; Done (v :: l'')
          | [] => Fail (ValueError "could not broadcast input array")
          end
      | S c => l'' ← assign_every step c l' vals; Done (x :: l'')
      end
  end.

(** [rows[..., start::step] = vals], row by row. *)
Fixpoint assign_columns {A : Type} (step start : nat)
    (rows vals : list (list A)) : res (list (list A)) :=
  match rows, vals with
  | [], [] => Done []
  | r :: rows', v :: vals' =>
      r' ← assign_every step start r v;
      rows'' ← assign_columns step start rows' vals';
      Done (r' :: rows'')
  | _, _ => Fail (ValueError "could not broadcast input array")
  end.

Module Resize.

(** The attributes [__init__] sets.  A scale is a tuple of two ints. *)
Record config : Type :=
  { img_scale : option (list (Z * Z));
    multiscale_mode : string;
    ratio_range : option (float * float);
    keep_ratio : bool }.

(** The [img_scale] argument: a tuple, or a list of tuples. *)
Inductive img_scale_arg : Type :=
| one_scale (s : Z * Z)
| scale_list (l : list (Z * Z)).

(** [__init__(self, img_scale=None, multiscale_mode='range',
    ratio_range=None, keep_ratio=True)], lines 41-63.  The assertion
    [mmcv.is_list_of(self.img_scale, tuple)] holds of every list of
    tuples. *)
Definition init (img_scale : option img_scale_arg) (multiscale_mode : string)
    (ratio_range : option (float * float)) (keep_ratio : bool) : res config :=
  let self_img_scale :=
    match img_scale with
    | None => None
    | Some (scale_list l) => Some l
    | Some (one_scale s) => Some [s]
    end in
  _ ← match ratio_range with
      | Some _ =>
          match self_img_scale with
          | None => Fail (TypeError "object of type 'NoneType' has no len()")
          | Some l =>
              if Nat.eqb (length l) 1 then Done tt else Fail AssertionError
          end
      | None =>
          if String.eqb multiscale_mode "value"
             || String.eqb multiscale_mode "range"
          then Done tt else Fail AssertionError
      end;
  Done {| img_scale := self_img_scale; multiscale_mode := multiscale_mode;
          ratio_range := ratio_range; keep_ratio := keep_ratio |}.

(** [min(l)] and [max(l)] of a list of ints. *)
Definition list_min (l : list Z) : res Z :=
  match l with
  | [] => Fail (ValueError "min() arg is an empty sequence")
  | x :: l' => Done (foldl Z.min x l')
  end.

Definition list_max (l : list Z) : res Z :=
  match l with
  | [] => Fail (ValueError "max() arg is an empty sequence")
  | x :: l' => Done (foldl Z.max x l')
  end.

(** [int(x)] of a Python float: truncation towards zero. *)
Definition int_of_float (x : float) : res Z :=
  match x with
  | S754_zero _ => Done 0
  | S754_finite s m e =>
      let magnitude := if (0 <=? e)%Z then Z.pos m * 2 ^ e
                       else Z.shiftr (Z.pos m) (- e) in
      Done (if s then - magnitude else magnitude)
  | S754_infinity _ => Fail OverflowError
  | S754_nan => Fail (ValueError "cannot convert float NaN to integer")
  end.

Section Random.

(** numpy's global generator: its state [G], [np.random.randint(low, high)]
    and [np.random.random_sample()]. *)
Variable G : Type.
Variable randint : Z -> Z -> G -> res Z * G.
Variable random_sample_draw : G -> float * G.

(** [random_select(img_scales)], lines 65-70. *)
Definition random_select (img_scales : list (Z * Z)) (g : G)
  : res ((Z * Z) * option Z) * G :=
  match randint 0 (Z.of_nat (length img_scales)) g with
  | (Done scale_idx, g') =>
      (img_scale ← list_item img_scales scale_idx;
       Done (img_scale, Some scale_idx), g')
  | (Fail e, g') => (Fail e, g')
  end.

(** [random_sample(img_scales)], lines 72-84. *)
Definition random_sample (img_scales : list (Z * Z)) (g : G)
  : res ((Z * Z) * option Z) * G :=
  if negb (Nat.eqb (length img_scales) 2) then (Fail AssertionError, g) else
  let img_scale_long := map (fun s => Z.max s.1 s.2) img_scales in
  let img_scale_short := map (fun s => Z.min s.1 s.2) img_scales in
  match (lo ← list_min img_scale_long; hi ← list_max img_scale_long; Done (lo, hi)) with
  | Fail e => (Fail e, g)
  | Done (lo, hi) =>
      match randint lo (hi + 1) g with
      | (Fail e, g') => (Fail e, g')
      | (Done long_edge, g') =>
          match (lo ← list_min img_scale_short; hi ← list_max img_scale_short;
                 Done (lo, hi)) with
          | Fail e => (Fail e, g')
          | Done (lo', hi') =>
              match randint lo' (hi' + 1) g' with
              | (Fail e, g'') => (Fail e, g'')
              | (Done short_edge, g'') =>
                  (Done ((long_edge, short_edge), None), g'')
              end
          end
      end
  end.

(** [random_sample_ratio(img_scale, ratio_range)], lines 86-92. *)
Definition random_sample_ratio (img_scale : Z * Z) (ratio_range : float * float)
    (g : G) : res ((Z * Z) * option Z) * G :=
  let '(min_ratio, max_ratio) := ratio_range in
  if negb (SFleb min_ratio max_ratio) then (Fail AssertionError, g) else
  let '(u, g') := random_sample_draw g in
  let ratio :=
    SFadd 53 1024 (SFmul 53 1024 u (SFsub 53 1024 max_ratio min_ratio))
      min_ratio in
  (w ← int_of_float (SFmul 53 1024 (of_int float64 img_scale.1) ratio);
   h ← int_of_float (SFmul 53 1024 (of_int float64 img_scale.2) ratio);
   Done ((w, h), None), g').

(** [_random_scale(self, results)], lines 94-108: the scale and the
    scale index it stores in [results]. *)
Definition random_scale (self : config) (g : G)
  : res ((Z * Z) * option Z) * G :=
  match ratio_range self with
  | Some range =>
      match img_scale self with
      | None => (Fail (TypeError "'NoneType' object is not subscriptable"), g)
      | Some [] => (Fail IndexError, g)
      | Some (s :: _) => random_sample_ratio s range g
      end
  | None =>
      match img_scale self with
      | None => (Fail (TypeError "object of type 'NoneType' has no len()"), g)
      | Some scales =>
          if Nat.eqb (length scales) 1 then
            match scales with
            | s :: _ => (Done (s, Some 0), g)
            | [] => (Fail IndexError, g)
            end
          else if String.eqb (multiscale_mode self) "range" then
            random_sample scales g
          else if String.eqb (multiscale_mode self) "value" then
            random_select scales g
          else (Fail NotImplementedError, g)
      end
  end.

End Random.

(** What numpy promises of [randint]: with [low < high] a value in
    [low, high). *)
Definition randint_in_range {G : Type} (randint : Z -> Z -> G -> res Z * G)
  : Prop :=
  forall (low high : Z) (g : G),
    low < high ->
    exists r g', randint low high g = (Done r, g') /\ low <= r < high.

(** A generator for examples: the state counts up, a draw is the state
    reduced to the range asked for. *)
Definition counter_randint (low high : Z) (g : Z) : res Z * Z :=
  if (low <? high)%Z then (Done (low + g mod (high - low)), g + 1)
  else (Fail (ValueError "low >= high"), g).

Definition counter_random_sample (g : Z) : float * Z :=
  (S754_zero false, g + 1).

End Resize.

Module RandomFlip.

(** A box array of shape [(N, b_cols)]. *)
Record boxes : Type :=
  { b_dtype : dtype; b_cols : nat; b_rows : list (list float) }.

Definition well_formed (bboxes : boxes) : Prop :=
  Forall (fun r => length r = b_cols bboxes) (b_rows bboxes).

(** [bbox_flip(self, bboxes, img_shape, direction)], lines 216-235. *)
Definition bbox_flip (bboxes : boxes) (img_shape : list Z)
    (direction : string) : res boxes :=
  if negb (Nat.eqb (b_cols bboxes mod 4) 0) then Fail AssertionError else
  let d := b_dtype bboxes in
  let flipped := b_rows bboxes in
  if String.eqb direction "horizontal" then
    w ← tuple_item img_shape 1;
    flipped ← assign_columns 4 0 flipped
                (map (fun r => map (mirror d w) (every 4 2 r)) (b_rows bboxes));
    flipped ← assign_columns 4 2 flipped
                (map (fun r => map (mirror d w) (every 4 0 r)) (b_rows bboxes));
    Done {| b_dtype := d; b_cols := b_cols bboxes; b_rows := flipped |}
  else if String.eqb direction "vertical" then
    h ← tuple_item img_shape 0;
    flipped ← assign_columns 4 1 flipped
                (map (fun r => map (mirror d h) (every 4 3 r)) (b_rows bboxes));
    flipped ← assign_columns 4 3 flipped
                (map (fun r => map (mirror d h) (every 4 1 r)) (b_rows bboxes));
    Done {| b_dtype := d; b_cols := b_cols bboxes; b_rows := flipped |}
  else
    Fail (ValueError ("Invalid flipping direction " ++ double_quote ++ direction
                       ++ double_quote)).

(** Box by box: what a horizontal and a vertical flip do to a row
    [x1, y1, x2, y2, ...]. *)
Fixpoint flip_boxes_horizontal (d : dtype) (w : Z) (row : list float)
  : list float :=
  match row with
  | x1 :: y1 :: x2 :: y2 :: rest =>
      mirror d w x2 :: y1 :: mirror d w x1 :: y2
        :: flip_boxes_horizontal d w rest
  | _ => row
  end.

Fixpoint flip_boxes_vertical (d : dtype) (h : Z) (row : list float)
  : list float :=
  match row with
  | x1 :: y1 :: x2 :: y2 :: rest =>
      x1 :: mirror d h y2 :: x2 :: mirror d h y1
        :: flip_boxes_vertical d h rest
  | _ => row
  end.

(** A keypoint array of shape [(N, k_num, k_dim)]. *)
Record keypoint_array : Type :=
  { k_dtype : dtype; k_num : nat; k_dim : nat;
    k_data : list (list (list float)) }.

Definition well_shaped (kps : keypoint_array) : Prop :=
  Forall (fun inst => length inst = k_num kps /\
                      Forall (fun pt => length pt = k_dim kps) inst)
    (k_data kps).

Definition keypoints : list string :=
  [ "nose"; "left_eye"; "right_eye"; "left_ear"; "right_ear";
    "left_shoulder"; "right_shoulder"; "left_elbow"; "right_elbow";
    "left_wrist"; "right_wrist"; "left_hip"; "right_hip";
    "left_knee"; "right_knee"; "left_ankle"; "right_ankle" ].

(** The dict [keypoint_flip_map], in insertion order. *)
Definition keypoint_flip_map : list (string * string) :=
  [ ("left_eye", "right_eye"); ("left_ear", "right_ear");
    ("left_shoulder", "right_shoulder"); ("left_elbow", "right_elbow");
    ("left_wrist", "right_wrist"); ("left_hip", "right_hip");
    ("left_knee", "right_knee"); ("left_ankle", "right_ankle") ].

(** [l.index(x)] *)
Fixpoint index (x : string) (l : list string) : res nat :=
  match l with
  | [] => Fail (ValueError (x ++ " is not in list"))
  | y :: l' => if String.eqb y x then Done O else i ← index x l'; Done (S i)
  end.

(** [a[:, i, :]] *)
Definition column (k : nat) (data : list (list (list float))) (i : nat)
  : res (list (list float)) :=
  if decide (i < k)%nat
  then mapM (fun inst => match inst !! i with
                         | Some pt => Done pt
                         | None => Fail IndexError
                         end) data
  else Fail IndexError.

(** [a[:, i, :] = pts] *)
Definition set_column (k : nat) (data : list (list (list float))) (i : nat)
    (pts : list (list float)) : res (list (list (list float))) :=
  if decide (i < k)%nat
  then Done (zip_with (fun inst pt => <[i := pt]> inst) data pts)
  else Fail IndexError.

(** The loop over [keypoint_flip_map.items()]. *)
Fixpoint swap_loop (k : nat) (keypoint_coords flipped_kps : list (list (list float)))
    (items : list (string * string)) : res (list (list (list float))) :=
  match items with
  | [] => Done flipped_kps
  | (lkp, rkp) :: items' =>
      lid ← index lkp keypoints;
      rid ← index rkp keypoints;
      right ← column k keypoint_coords rid;
      flipped_kps ← set_column k flipped_kps lid right;
      left ← column k keypoint_coords lid;
      flipped_kps ← set_column k flipped_kps rid left;
      swap_loop k keypoint_coords flipped_kps items'
  end.

Definition zero : float := S754_zero false.

(** [pts[..., 0] = width - pts[..., 0] - 1] on one keypoint. *)
Definition flip_x (d : dtype) (width : Z) (pt : list float) : list float :=
  match pt with
  | x :: rest => mirror d width x :: rest
  | [] => []
  end.

(** [pts[pts[..., 2] == 0] = 0] on one keypoint. *)
Definition zero_invisible (pt : list float) : list float :=
  match pt !! 2%nat with
  | Some v => if SFeqb v zero then replicate (length pt) zero else pt
  | None => pt
  end.

(** [kpts_flip(self, keypoint_coords, img_shape)], lines 237-284. *)
Definition kpts_flip (keypoint_coords : keypoint_array) (img_shape : list Z)
  : res keypoint_array :=
  let d := k_dtype keypoint_coords in
  let flipped_kps := k_data keypoint_coords in
  width ← tuple_item img_shape 1;
  flipped_kps ← swap_loop (k_num keypoint_coords) (k_data keypoint_coords)
                  flipped_kps keypoint_flip_map;
  if decide (k_dim keypoint_coords < 1)%nat then Fail IndexError else
  let flipped_kps := map (map (flip_x d width)) flipped_kps in
  if decide (k_dim keypoint_coords < 3)%nat then Fail IndexError else
  let flipped_kps := map (map zero_invisible) flipped_kps in
  Done {| k_dtype := d; k_num := k_num keypoint_coords;
          k_dim := k_dim keypoint_coords; k_data := flipped_kps |}.

(** The positions in [keypoints] of the pairs of [keypoint_flip_map]. *)
Definition flip_positions : list (nat * nat) :=
  [ (1, 2); (3, 4); (5, 6); (7, 8); (9, 10); (11, 12); (13, 14);
    (15, 16) ]%nat.

(** The share of one instance in the loop: for each pair, its keypoints
    at the two positions are written from the original instance. *)
Definition exchange_step (lid rid : nat) (orig flipped : list (list float))
  : list (list float) :=
  <[rid := default [] (orig !! lid)]>
    (<[lid := default [] (orig !! rid)]> flipped).

Definition exchange_in (orig flipped : list (list float))
    (ids : list (nat * nat)) : list (list float) :=
  foldl (fun f '(lid, rid) => exchange_step lid rid orig f) flipped ids.

(** A keypoint whose visibility compares equal to 0. *)
Definition invisible (pt : list float) : bool :=
  match pt !! 2%nat with
  | Some v => SFeqb v zero
  | None => false
  end.

(** The number of keypoints of an instance that are not invisible. *)
Definition visible_count (inst : list (list float)) : nat :=
  length (List.filter (fun pt => negb (invisible pt)) inst).

(** Keypoint by keypoint: the left/right exchange of one instance. *)
Fixpoint exchange_pairs {A : Type} (l : list A) : list A :=
  match l with
  | a :: b :: rest => b :: a :: exchange_pairs rest
  | _ => l
  end.

Definition exchange_sides {A : Type} (inst : list A) : list A :=
  match inst with
  | nose :: rest => nose :: exchange_pairs (take 16 rest) ++ drop 16 rest
  | [] => []
  end.

(** One person seen from the side: nose and left eye annotated at
    (50, 20) and (40, 10), everything else not annotated; float32. *)
Definition profile_person : keypoint_array :=
  {| k_dtype := float32; k_num := 17; k_dim := 3;
     k_data := [ map (of_int float32) [50; 20; 2]
                 :: map (of_int float32) [40; 10; 2]
                 :: replicate 15 [zero; zero; zero] ] |}.

(** Two boxes in one row, (10, 20, 30, 40) and (0, 0, 99, 49); float32. *)
Definition two_boxes : boxes :=
  {| b_dtype := float32; b_cols := 8;
     b_rows := [ map (of_int float32) [10; 20; 30; 40; 0; 0; 99; 49] ] |}.

(** [poly_mask_flip(self, poly_masks, img_shape, direction)],
    lines 287-303.  A polygon is a flat list [x0, y0, x1, y1, ...] of
    Python floats; as an array it is float64. *)
Definition poly_mask_flip (poly_masks : list (list (list float)))
    (img_shape : list Z) (direction : string)
  : res (list (list (list float))) :=
  mapM (fun poly_mask =>
    mapM (fun p =>
      if String.eqb direction "horizontal" then
        w ← tuple_item img_shape 1;
        assign_every 2 0 p (map (mirror float64 w) (every 2 0 p))
      else if String.eqb direction "vertical" then
        h ← tuple_item img_shape 0;
        Fail (AttributeError "module 'numpy' has no attribute 'p'")
      else
        Fail (ValueError ("Invalid flipping direction " ++ double_quote ++ direction
                       ++ double_quote)))
      poly_mask)
    poly_masks.

Fixpoint flip_polygon_horizontal (w : Z) (p : list float) : list float :=
  match p with
  | x :: p' =>
      mirror float64 w x ::
        match p' with
        | y :: p'' => y :: flip_polygon_horizontal w p''
        | [] => []
        end
  | [] => []
  end.

End RandomFlip.

Module Albu.

(** A Python dict with string keys: its items in insertion order, no key
    twice. *)
Definition dict (V : Type) : Type := list (string * V).

Definition keys {V : Type} (d : dict V) : list string := map fst d.

(** [d.get(k)] *)
Fixpoint get {V : Type} (d : dict V) (k : string) : option V :=
  match d with
  | [] => None
  | (k', v) :: d' => if String.eqb k' k then Some v else get d' k
  end.

(** [d[k] = v]: an existing key keeps its place, a new key goes last. *)
Fixpoint set {V : Type} (d : dict V) (k : string) (v : V) : dict V :=
  match d with
  | [] => [(k, v)]
  | (k', v') :: d' =>
      if String.eqb k' k then (k, v) :: d' else (k', v') :: set d' k v
  end.

(** The loop of [mapper] over the keys of [d]. *)
Fixpoint mapper_loop {V : Type} (d : dict V) (keymap : dict string)
    (updated_dict : dict V) (ks : list string) : res (dict V) :=
  match ks with
  | [] => Done updated_dict
  | k :: ks' =>
      let new_k := default k (get keymap k) in
      match get d k with
      | Some v => mapper_loop d keymap (set updated_dict new_k v) ks'
      | None => Fail (KeyError k)
      end
  end.

(** [mapper(d, keymap)], lines 888-904. *)
Definition mapper {V : Type} (d : dict V) (keymap : dict string)
  : res (dict V) :=
  mapper_loop d keymap [] (keys d).

(** [{v: k for k, v in keymap.items()}], line 856. *)
Definition invert (keymap : dict string) : dict string :=
  foldl (fun acc '(k, v) => set acc v k) [] keymap.

(** The keymap used when none is given, lines 849-853. *)
Definition default_keymap : dict string :=
  [ ("img", "image"); ("gt_masks", "masks"); ("gt_bboxes", "bboxes") ].

End Albu.

End transforms.

(** ** Further vocabulary: what a kernel call carries *)

(** The element type and the rows of the candidate set a kernel call
    carries. *)
Definition call_input (c : call) : dtype * list (list float) :=
  match c with
  | Called b =>
      match b with
      | nms_cpu_nms t _ => (t_dtype t, t_rows t)
      | nms_cuda_nms t _ => (t_dtype t, t_rows t)
      | soft_nms_cpu a _ _ _ _ => (a_dtype a, a_rows a)
      | oks_nms_cuda_oks_nms t _ _ => (t_dtype t, t_rows t)
      | oks_nms_cpu_oks_nms t _ _ => (t_dtype t, t_rows t)
      | oks_nms_py_oks_nms a _ _ => (a_dtype a, a_rows a)
      | oks_nms_vis_cuda_oks_nms t _ _ _ => (t_dtype t, t_rows t)
      end
  end.

(** The overlap threshold a kernel call carries. *)
Definition call_iou_thr (c : call) : float :=
  match c with
  | Called b =>
      match b with
      | nms_cpu_nms _ thr => thr
      | nms_cuda_nms _ thr => thr
      | soft_nms_cpu _ thr _ _ _ => thr
      | oks_nms_cuda_oks_nms _ thr _ => thr
      | oks_nms_cpu_oks_nms _ thr _ => thr
      | oks_nms_py_oks_nms _ thr _ => thr
      | oks_nms_vis_cuda_oks_nms _ thr _ _ => thr
      end
  end.

(** The calls to the Python reference kernel oks_nms_py. *)
Definition is_reference_call {X : Type} (b : backend X) : bool :=
  match b with
  | oks_nms_py_oks_nms _ _ _ => true
  | _ => false
  end.

Definition device_of (dets : object) : option device :=
  match dets with
  | tensor t => Some (t_device t)
  | _ => None
  end.

Definition index_device_of (inds : index_object) : option device :=
  match inds with
  | long_tensor l => Some (l_device l)
  | long_array _ => None
  end.

(** Kernels that always raise [e]. *)
Definition always_raise (e : exception) : handler nat :=
  fun X b w => (Raised e, S w).

(** [keep_first], except that the Python reference kernel answers the
    indices [inds]. *)
Definition keep_first_reference_answers (inds : list Z) : handler nat :=
  fun X b w =>
    match b in backend X return result X * nat with
    | oks_nms_py_oks_nms _ _ _ => (Ok inds, S w)
    | b' => keep_first _ b' w
    end.

(** [keep_first], except that the Python reference kernel raises [e]. *)
Definition keep_first_reference_raises (e : exception) : handler nat :=
  fun X b w =>
    match b in backend X return result X * nat with
    | oks_nms_py_oks_nms _ _ _ => (Raised e, S w)
    | b' => keep_first _ b' w
    end.

Arguments cast : simpl never.
Arguments truediv : simpl never.
Arguments take_rows : simpl never.
Arguments np.astype : simpl never.

(** ** Running a program: general facts *)

Lemma exec_bind {A B W : Type} (h : handler W) (p : Prog A) (f : A -> Prog B)
    (w : W) :
  exec h (bind p f) w =
    let r := exec h p w in
    match outcome r with
    | Ok a =>
        let r' := exec h (f a) (world r) in
        {| outcome := outcome r'; trace := trace r ++ trace r';
           world := world r' |}
    | Raised e =>
        {| outcome := Raised e; trace := trace r; world := world r |}
    end.
Proof.
  revert w. induction p as [a|e|X b k IH]; intros w; simpl.
  - destruct (exec h (f a) w); reflexivity.
  - reflexivity.
  - destruct (h X b w) as [[x|e] w']; simpl; [|reflexivity].
    rewrite IH. simpl. destruct (outcome (exec h (k x) w')); reflexivity.
Qed.

(** The outcome and the calls of a run depend on the world only through
    the kernels' answers. *)
Lemma exec_world_independent {A W : Type} (h : handler W) (p : Prog A) :
  (forall (X : Type) (b : backend X) (w1 w2 : W), (h X b w1).1 = (h X b w2).1) ->
  forall w1 w2 : W,
    outcome (exec h p w1) = outcome (exec h p w2) /\
    trace (exec h p w1) = trace (exec h p w2).
Proof.
  intros Hh. induction p as [a|e|X b k IH]; intros w1 w2; simpl.
  - split; reflexivity.
  - split; reflexivity.
  - specialize (Hh X b w1 w2).
    destruct (h X b w1) as [r1 w1'], (h X b w2) as [r2 w2']. simpl in Hh.
    subst r2. destruct r1 as [x|e]; simpl; [|split; reflexivity].
    destruct (IH x w1' w2') as [-> ->]. split; reflexivity.
Qed.

Lemma method_codes_unknown (method : string) :
  method <> "linear" -> method <> "gaussian" -> method_codes !! method = None.
Proof.
  intros H1 H2. unfold method_codes.
  rewrite lookup_insert_ne by congruence.
  apply lookup_singleton_ne. congruence.
Qed.

Lemma method_codes_linear : method_codes !! "linear" = Some 1.
Proof. reflexivity. Qed.

Lemma method_codes_gaussian : method_codes !! "gaussian" = Some 2.
Proof. reflexivity. Qed.

(** Case analysis on every kernel answer and every row selection met
    while a run is unfolded. *)
Ltac run_cases h :=
  repeat (cbn;
          match goal with
          | |- context [h ?X ?b ?w] => destruct (h X b w) as [[?|?] ?]
          | |- context [take_rows ?rows ?inds] => destruct (take_rows rows inds)
          | x : (ndarray * list Z)%type |- _ => destruct x
          end);
  cbn.

Ltac solve_trace h :=
  run_cases h; first [discriminate | solve [repeat constructor]].

(** ** Rejected inputs *)

(** C7. A candidate set that is neither a tensor nor an array makes each
    of the four entry points raise TypeError, and no kernel has been
    called when it does. *)
Theorem unsupported_container_raises_TypeError {W : Type} (h : handler W)
    (w : W) (ty : string) (iou_thr : float) (device_id : option Z)
    (method : string) (sigma min_score vis_thr : float) (sigmas : list float) :
  exec h (nms (other ty) iou_thr device_id) w =
    {| outcome := Raised (TypeError
         ("dets must be either a Tensor or numpy array, but got " ++ ty));
       trace := []; world := w |} /\
  exec h (soft_nms (other ty) iou_thr method sigma min_score) w =
    {| outcome := Raised (TypeError
         ("dets must be either a Tensor or numpy array, but got " ++ ty));
       trace := []; world := w |} /\
  exec h (oks_nms (other ty) iou_thr sigmas device_id) w =
    {| outcome := Raised (TypeError
         ("kpts must be either a Tensor or numpy array, but got " ++ ty));
       trace := []; world := w |} /\
  exec h (oks_nms_vis (other ty) iou_thr sigmas vis_thr device_id) w =
    {| outcome := Raised (TypeError
         ("kpts must be either a Tensor or numpy array, but got " ++ ty));
       trace := []; world := w |}.
Proof. repeat split. Qed.

(** C6. With a method name other than 'linear' and 'gaussian', soft_nms
    on a tensor or an array raises ValueError; whatever the candidate set
    is, the call ends in an exception and soft_nms_cpu is never called, so
    no decay method is substituted for the unknown one. *)
Theorem soft_nms_unknown_method_raises_ValueError {W : Type} (h : handler W)
    (w : W) (iou_thr : float) (method : string) (sigma min_score : float) :
  method <> "linear" -> method <> "gaussian" ->
  (forall dets : object, is_container dets = true ->
     exec h (soft_nms dets iou_thr method sigma min_score) w =
       {| outcome := Raised (ValueError ("Invalid method for SoftNMS: " ++ method));
          trace := []; world := w |}) /\
  (forall dets : object,
     (exists e, outcome (exec h (soft_nms dets iou_thr method sigma min_score) w)
                = Raised e) /\
     trace (exec h (soft_nms dets iou_thr method sigma min_score) w) = []).
Proof.
  intros H1 H2. pose proof (method_codes_unknown method H1 H2) as Hm.
  split.
  - intros [t|a|ty] Hc; try discriminate; cbn; rewrite Hm; reflexivity.
  - intros [t|a|ty]; cbn; try rewrite Hm; cbn; eauto.
Qed.

Lemma soft_nms_unknown_method_witness :
  exec keep_first
    (soft_nms (array {| a_dtype := float32; a_rows := one_box |}) tenth
       "exponential" default_sigma default_min_score) 0%nat =
    {| outcome := Raised (ValueError "Invalid method for SoftNMS: exponential");
       trace := []; world := 0%nat |}.
Proof.
  refine (proj1 (soft_nms_unknown_method_raises_ValueError keep_first 0%nat
                   tenth "exponential" default_sigma default_min_score _ _)
            _ _); [discriminate | discriminate | reflexivity].
Defined.

(** ** One OKS-NMS entry point *)

(** C9. The two definitions of oks_nms in the module are the same
    function: on every input and against every kernel behaviour the
    earlier definition and the later one, which replaces it, run
    identically (same outcome, same kernel calls, same final world). *)
Theorem oks_nms_redefinition_agrees {W : Type} (h : handler W) (w : W)
    (kpts : object) (iou_thr : float) (sigmas : list float)
    (device_id : option Z) :
  oks_nms_first kpts iou_thr sigmas device_id =
    oks_nms kpts iou_thr sigmas device_id /\
  exec h (oks_nms_first kpts iou_thr sigmas device_id) w =
    exec h (oks_nms kpts iou_thr sigmas device_id) w.
Proof. split; reflexivity. Qed.

(** ** Determinism *)

(** C8. When the kernels are deterministic (their answers do not depend
    on the world), two calls of the same entry point with identical
    arguments, made in any two worlds, have the same outcome (identical
    kept candidates and identical indices in the same order, or the same
    exception) and make the same kernel calls. *)
Theorem entry_points_deterministic {W : Type} (h : handler W) :
  (forall (X : Type) (b : backend X) (w1 w2 : W), (h X b w1).1 = (h X b w2).1) ->
  forall (w1 w2 : W) (dets : object) (iou_thr : float) (device_id : option Z)
         (method : string) (sigma min_score vis_thr : float)
         (sigmas : list float),
    (outcome (exec h (nms dets iou_thr device_id) w1) =
       outcome (exec h (nms dets iou_thr device_id) w2) /\
     trace (exec h (nms dets iou_thr device_id) w1) =
       trace (exec h (nms dets iou_thr device_id) w2)) /\
    (outcome (exec h (soft_nms dets iou_thr method sigma min_score) w1) =
       outcome (exec h (soft_nms dets iou_thr method sigma min_score) w2) /\
     trace (exec h (soft_nms dets iou_thr method sigma min_score) w1) =
       trace (exec h (soft_nms dets iou_thr method sigma min_score) w2)) /\
    (outcome (exec h (oks_nms dets iou_thr sigmas device_id) w1) =
       outcome (exec h (oks_nms dets iou_thr sigmas device_id) w2) /\
     trace (exec h (oks_nms dets iou_thr sigmas device_id) w1) =
       trace (exec h (oks_nms dets iou_thr sigmas device_id) w2)) /\
    (outcome (exec h (oks_nms_vis dets iou_thr sigmas vis_thr device_id) w1) =
       outcome (exec h (oks_nms_vis dets iou_thr sigmas vis_thr device_id) w2) /\
     trace (exec h (oks_nms_vis dets iou_thr sigmas vis_thr device_id) w1) =
       trace (exec h (oks_nms_vis dets iou_thr sigmas vis_thr device_id) w2)).
Proof.
  intros Hh w1 w2 dets iou_thr device_id method sigma min_score vis_thr sigmas.
  repeat apply conj; apply exec_world_independent; exact Hh.
Qed.

Lemma keep_first_deterministic (X : Type) (b : backend X) (w1 w2 : nat) :
  (keep_first X b w1).1 = (keep_first X b w2).1.
Proof. destruct b; reflexivity. Qed.

Lemma entry_points_deterministic_witness :
  outcome (exec keep_first
             (nms (array {| a_dtype := float32; a_rows := one_box ++ one_box |})
                tenth None) 0%nat) =
  outcome (exec keep_first
             (nms (array {| a_dtype := float32; a_rows := one_box ++ one_box |})
                tenth None) 7%nat).
Proof.
  exact (proj1 (proj1 (entry_points_deterministic keep_first
                         keep_first_deterministic 0%nat 7%nat
                         (array {| a_dtype := float32;
                                   a_rows := one_box ++ one_box |})
                         tenth None "linear" default_sigma default_min_score
                         default_vis_thr []))).
Defined.

(** ** The per-keypoint constants *)

(** C10. What oks_nms and oks_nms_vis hand to the kernels as sigmas is
    the caller's per-keypoint sigmas each divided by 10 (then stored as
    binary32), never the sigmas as given.  On a non-empty candidate set
    the kernels are called, and the calls are exactly these: on the
    accelerator the one call of the accelerator kernel, on the host the
    call of oks_nms_cpu followed, when that one answers, by the call of
    oks_nms_py, each with the divided sigmas.  Every kernel call of every
    run carries them; hence two sigma lists with the same quotients by 10
    lead to the same run, kept set included. *)
Theorem oks_sigmas_divided_by_ten {W : Type} (h : handler W) (w : W)
    (kpts : object) (iou_thr vis_thr : float) (sigmas : list float)
    (device_id : option Z) :
  let divided := map (cast float32) (map (fun s => truediv s ten) sigmas) in
  (forall t : Tensor,
     t_rows t <> [] ->
     kpts = tensor t \/
     (exists a, kpts = array a /\
                t = torch.to (torch.from_numpy a)
                      match device_id with
                      | None => cpu
                      | Some id => cuda id
                      end) ->
     let host_calls :=
       Called (oks_nms_cpu_oks_nms t iou_thr divided) ::
       match (h _ (oks_nms_cpu_oks_nms t iou_thr divided) w).1 with
       | Ok _ => [Called (oks_nms_py_oks_nms (torch.numpy t) iou_thr divided)]
       | Raised _ => []
       end in
     trace (exec h (oks_nms kpts iou_thr sigmas device_id) w) =
       (if torch.is_cuda t
        then [Called (oks_nms_cuda_oks_nms t iou_thr divided)]
        else host_calls) /\
     trace (exec h (oks_nms_vis kpts iou_thr sigmas vis_thr device_id) w) =
       (if torch.is_cuda t
        then [Called (oks_nms_vis_cuda_oks_nms t iou_thr vis_thr divided)]
        else host_calls)) /\
  Forall (fun c => call_sigmas c = Some divided)
    (trace (exec h (oks_nms kpts iou_thr sigmas device_id) w)) /\
  Forall (fun c => call_sigmas c = Some divided)
    (trace (exec h (oks_nms_vis kpts iou_thr sigmas vis_thr device_id) w)) /\
  (forall sigmas' : list float,
     map (fun s => truediv s ten) sigmas = map (fun s => truediv s ten) sigmas' ->
     exec h (oks_nms kpts iou_thr sigmas device_id) w =
       exec h (oks_nms kpts iou_thr sigmas' device_id) w /\
     exec h (oks_nms_vis kpts iou_thr sigmas vis_thr device_id) w =
       exec h (oks_nms_vis kpts iou_thr sigmas' vis_thr device_id) w).
Proof.
  cbv zeta. split; [|split; [|split]].
  - intros t Hne Hk.
    assert (exists d dt r rs,
              t = {| t_device := d; t_dtype := dt; t_rows := r :: rs |})
      as (d & dt & r & rs & ->).
    { destruct t as [d dt [|r rs]]; [contradiction Hne; reflexivity|].
      eexists _, _, _, _. reflexivity. }
    destruct Hk as [->|([dt' rows'] & -> & Ht)].
    + destruct d; split;
        cbv [oks_nms oks_nms_vis torch.FloatTensor torch.vector_numpy torch.to
             torch.from_numpy torch.numpy t_device t_dtype t_rows a_dtype
             a_rows];
        run_cases h; reflexivity.
    + injection Ht as Hd Hdt Hrows. subst d dt' rows'.
      destruct device_id; split;
        cbv [oks_nms oks_nms_vis torch.FloatTensor torch.vector_numpy torch.to
             torch.from_numpy torch.numpy t_device t_dtype t_rows a_dtype
             a_rows];
        run_cases h; reflexivity.
  - destruct kpts as [[[|i] dt [|r rs]]|[dt [|r rs]]|ty]; try destruct device_id;
      run_cases h; repeat constructor.
  - destruct kpts as [[[|i] dt [|r rs]]|[dt [|r rs]]|ty]; try destruct device_id;
      run_cases h; repeat constructor.
  - intros sigmas' Heq. unfold oks_nms, oks_nms_vis. cbv zeta.
    rewrite Heq. split; reflexivity.
Qed.

Lemma oks_sigmas_divided_by_ten_witness :
  let kpts := {| a_dtype := float32; a_rows := one_box |} in
  let t := {| t_device := cpu; t_dtype := float32; t_rows := one_box |} in
  trace (exec keep_first (oks_nms (array kpts) tenth [ten] None) 0%nat) =
    [Called (oks_nms_cpu_oks_nms t tenth [unit32]);
     Called (oks_nms_py_oks_nms kpts tenth [unit32])] /\
  exec keep_first (oks_nms (array kpts) tenth [tiny] None) 0%nat =
  exec keep_first (oks_nms (array kpts) tenth [S754_zero false] None) 0%nat.
Proof.
  cbv zeta. split.
  - refine (proj1 (proj1 (oks_sigmas_divided_by_ten keep_first 0%nat
              (array {| a_dtype := float32; a_rows := one_box |}) tenth
              default_vis_thr [ten] None)
              {| t_device := cpu; t_dtype := float32; t_rows := one_box |}
              _ _)).
    + discriminate.
    + right. eexists. split; reflexivity.
  - refine (proj1 (proj2 (proj2 (proj2 (oks_sigmas_divided_by_ten keep_first
              0%nat (array {| a_dtype := float32; a_rows := one_box |}) tenth
              default_vis_thr [tiny] None))) [S754_zero false] _)).
    vm_compute. reflexivity.
Defined.

(** ** The visibility threshold *)

(** C1. On a host-resident candidate set (an array without device_id, or
    a host tensor) oks_nms_vis runs exactly as oks_nms does: it calls the
    plain OKS kernels, none of its kernel calls carries vis_thr, and its
    run is the same for every vis_thr.  Only on an accelerator-resident
    tensor is vis_thr handed to a kernel. *)
Theorem oks_nms_vis_host_ignores_vis_thr {W : Type} (h : handler W) (w : W)
    (dt : dtype) (rows : list (list float)) (iou_thr vis_thr : float)
    (sigmas : list float) (device_id : option Z) :
  exec h (oks_nms_vis (array {| a_dtype := dt; a_rows := rows |})
            iou_thr sigmas vis_thr None) w =
    exec h (oks_nms (array {| a_dtype := dt; a_rows := rows |})
              iou_thr sigmas None) w /\
  exec h (oks_nms_vis (tensor {| t_device := cpu; t_dtype := dt; t_rows := rows |})
            iou_thr sigmas vis_thr device_id) w =
    exec h (oks_nms (tensor {| t_device := cpu; t_dtype := dt; t_rows := rows |})
              iou_thr sigmas device_id) w /\
  Forall (fun c => call_vis_thr c = None)
    (trace (exec h (oks_nms_vis (array {| a_dtype := dt; a_rows := rows |})
                      iou_thr sigmas vis_thr None) w)) /\
  Forall (fun c => call_vis_thr c = None)
    (trace (exec h (oks_nms_vis
                      (tensor {| t_device := cpu; t_dtype := dt; t_rows := rows |})
                      iou_thr sigmas vis_thr device_id) w)) /\
  (forall (i : Z) (r : list float),
     Forall (fun c => call_vis_thr c = Some vis_thr)
       (trace (exec h (oks_nms_vis
                         (tensor {| t_device := cuda i; t_dtype := dt;
                                    t_rows := r :: rows |})
                         iou_thr sigmas vis_thr device_id) w)) /\
     trace (exec h (oks_nms_vis
                      (tensor {| t_device := cuda i; t_dtype := dt;
                                 t_rows := r :: rows |})
                      iou_thr sigmas vis_thr device_id) w) <> []).
Proof.
  repeat apply conj.
  - destruct rows; reflexivity.
  - destruct rows; reflexivity.
  - destruct rows; run_cases h; repeat constructor.
  - destruct rows; run_cases h; repeat constructor.
  - intros i r. split.
    + run_cases h; repeat constructor.
    + run_cases h; discriminate.
Qed.

(** The failing input of C1, run: one host candidate, two different
    visibility thresholds, one and the same run. *)
Example oks_nms_vis_host_example :
  exec keep_first
    (oks_nms_vis (array {| a_dtype := float32; a_rows := one_box |}) tenth
       [ten] tenth None) 0%nat =
  exec keep_first
    (oks_nms_vis (array {| a_dtype := float32; a_rows := one_box |}) tenth
       [ten] ten None) 0%nat /\
  map call_vis_thr
    (trace (exec keep_first
              (oks_nms_vis (array {| a_dtype := float32; a_rows := one_box |})
                 tenth [ten] tenth None) 0%nat)) = [None; None].
Proof. split; reflexivity. Qed.

(** ** Zero candidates *)

(** C2, as the code has it.  nms, oks_nms and oks_nms_vis return an empty
    kept set and an empty index sequence for a zero-candidate tensor or
    array, raise nothing and call no kernel.  soft_nms has no such guard:
    with either decay method it hands the empty candidate set, array or
    tensor, to soft_nms_cpu, that being its only kernel call, and returns
    what the kernel answers (or raises the kernel's exception).  When the
    kernel answers with rows of its input, as contracted, there are no
    such rows: soft_nms too returns an empty kept set and an empty index
    sequence and raises nothing. *)
Theorem zero_candidates {W : Type} (h : handler W) (w : W) (dt : dtype)
    (d : device) (iou_thr vis_thr sigma min_score : float)
    (sigmas : list float) (device_id : option Z) :
  let empty_array := array {| a_dtype := dt; a_rows := [] |} in
  let t := {| t_device := d; t_dtype := dt; t_rows := [] |} in
  let empty_tensor := tensor t in
  let no_array_run :=
    {| outcome := Ok (empty_array, long_array []); trace := []; world := w |} in
  let no_tensor_run :=
    {| outcome := Ok (empty_tensor,
                      long_tensor {| l_device := d; l_data := [] |});
       trace := []; world := w |} in
  (exec h (nms empty_array iou_thr device_id) w = no_array_run /\
   exec h (nms empty_tensor iou_thr device_id) w = no_tensor_run) /\
  (exec h (oks_nms empty_array iou_thr sigmas device_id) w = no_array_run /\
   exec h (oks_nms empty_tensor iou_thr sigmas device_id) w = no_tensor_run) /\
  (exec h (oks_nms_vis empty_array iou_thr sigmas vis_thr device_id) w
     = no_array_run /\
   exec h (oks_nms_vis empty_tensor iou_thr sigmas vis_thr device_id) w
     = no_tensor_run) /\
  (forall (method : string) (code : Z),
     (method, code) = ("linear", 1) \/ (method, code) = ("gaussian", 2) ->
     let kernel_call :=
       soft_nms_cpu {| a_dtype := dt; a_rows := [] |} iou_thr code sigma
         min_score in
     (trace (exec h (soft_nms empty_array iou_thr method sigma min_score) w)
        = [Called kernel_call] /\
      trace (exec h (soft_nms empty_tensor iou_thr method sigma min_score) w)
        = [Called kernel_call]) /\
     (outcome (exec h (soft_nms empty_array iou_thr method sigma min_score) w)
        = match (h _ kernel_call w).1 with
          | Ok (new_dets, inds) =>
              Ok (array (np.astype new_dets float32), long_array inds)
          | Raised e => Raised e
          end /\
      outcome (exec h (soft_nms empty_tensor iou_thr method sigma min_score) w)
        = match (h _ kernel_call w).1 with
          | Ok (new_dets, inds) =>
              Ok (tensor (new_tensor t new_dets),
                  long_tensor (new_tensor_long t inds))
          | Raised e => Raised e
          end) /\
     (forall answer : ndarray * list Z,
        (h _ kernel_call w).1 = Ok answer ->
        kernel_contract kernel_call answer ->
        outcome (exec h (soft_nms empty_array iou_thr method sigma min_score) w)
          = Ok (array {| a_dtype := float32; a_rows := [] |}, long_array []) /\
        outcome (exec h (soft_nms empty_tensor iou_thr method sigma min_score) w)
          = Ok (empty_tensor, long_tensor {| l_device := d; l_data := [] |}))).
Proof.
  cbv zeta. repeat apply conj; try (destruct device_id; reflexivity).
  intros method code Hm.
  assert (method_codes !! method = Some code) as Hcode
    by (destruct Hm as [[= -> ->]|[= -> ->]]; reflexivity).
  clear Hm. cbn. rewrite Hcode. cbn.
  destruct (h _ _ w) as [[[nd inds]|e] w']; cbn;
    (split; [split; reflexivity|]); (split; [split; reflexivity|]);
    intros answer [= <-].
  intros [Hdt HF]. destruct nd as [dt' rows]. cbn in Hdt, HF. subst dt'.
  destruct HF as [|row i rows inds [Hi _] _]; [|lia].
  unfold new_tensor, new_tensor_long, np.astype. cbn.
  destruct (decide (dt = dt)) as [_|_];
    destruct (decide (dt = float32)) as [->|_]; split; reflexivity.
Qed.

Lemma zero_candidates_witness :
  let no_candidates := {| a_dtype := float32; a_rows := [] |} in
  let t := {| t_device := cuda 0; t_dtype := float32; t_rows := [] |} in
  outcome (exec keep_first
             (soft_nms (array no_candidates) tenth "linear" default_sigma
                default_min_score) 0%nat) =
    Ok (array no_candidates, long_array []) /\
  outcome (exec keep_first
             (soft_nms (tensor t) tenth "linear" default_sigma
                default_min_score) 0%nat) =
    Ok (tensor t, long_tensor {| l_device := cuda 0; l_data := [] |}).
Proof.
  refine (proj2 (proj2 (proj2 (proj2 (proj2 (zero_candidates keep_first 0%nat
            float32 (cuda 0) tenth default_vis_thr default_sigma
            default_min_score [] None))) "linear" 1 _))
            ({| a_dtype := float32; a_rows := [] |}, []) _ _).
  - left; reflexivity.
  - reflexivity.
  - split; [reflexivity | constructor].
Defined.

(** C2 as stated fails for soft_nms: on a zero-candidate array the kernel
    soft_nms_cpu is called. *)
Lemma soft_nms_calls_kernel_on_zero_candidates :
  candidates (array {| a_dtype := float32; a_rows := [] |}) = [] /\
  trace (exec keep_first
           (soft_nms (array {| a_dtype := float32; a_rows := [] |}) tenth
              "linear" default_sigma default_min_score) 0%nat) <> [].
Proof. split; [reflexivity | discriminate]. Qed.

(** ** Which kernels run *)

(** C4, as the code has it.  On a non-empty candidate set nms, oks_nms
    and oks_nms_vis call at least one kernel and every kernel they call
    is on the side the candidates are resident on: the accelerator for an
    accelerator-resident tensor and for an array given with device_id, the
    host for a host-resident tensor (device_id is not consulted for a
    tensor) and for an array without device_id.  soft_nms has no
    accelerator kernel: every kernel it calls is on the host, wherever the
    candidates are resident, and with a known decay method it does call
    one. *)
Theorem kernels_follow_residency {W : Type} (h : handler W) (w : W)
    (dets : object) (iou_thr vis_thr sigma min_score : float)
    (sigmas : list float) (device_id : option Z) (method : string) :
  candidates dets <> [] ->
  (trace (exec h (nms dets iou_thr device_id) w) <> [] /\
   Forall (fun c => backend_side c = residency dets device_id)
     (trace (exec h (nms dets iou_thr device_id) w))) /\
  (trace (exec h (oks_nms dets iou_thr sigmas device_id) w) <> [] /\
   Forall (fun c => backend_side c = residency dets device_id)
     (trace (exec h (oks_nms dets iou_thr sigmas device_id) w))) /\
  (trace (exec h (oks_nms_vis dets iou_thr sigmas vis_thr device_id) w) <> [] /\
   Forall (fun c => backend_side c = residency dets device_id)
     (trace (exec h (oks_nms_vis dets iou_thr sigmas vis_thr device_id) w))) /\
  (Forall (fun c => backend_side c = host)
     (trace (exec h (soft_nms dets iou_thr method sigma min_score) w)) /\
   (method = "linear" \/ method = "gaussian" ->
    trace (exec h (soft_nms dets iou_thr method sigma min_score) w) <> [])).
Proof.
  intros Hne.
  destruct dets as [[d dt [|r rs]]|[dt [|r rs]]|ty];
    try (exfalso; apply Hne; reflexivity); clear Hne.
  - repeat apply conj.
    1-6: destruct d; solve_trace h.
    + cbn. destruct (method_codes !! method); solve_trace h.
    + intros [->| ->]; cbn;
        rewrite ?method_codes_linear, ?method_codes_gaussian; solve_trace h.
  - repeat apply conj.
    1-6: destruct device_id; solve_trace h.
    + cbn. destruct (method_codes !! method); solve_trace h.
    + intros [->| ->]; cbn;
        rewrite ?method_codes_linear, ?method_codes_gaussian; solve_trace h.
Qed.

Lemma kernels_follow_residency_witness :
  map backend_side
    (trace (exec keep_first
              (nms (array {| a_dtype := float32; a_rows := one_box |}) tenth
                 (Some 0)) 0%nat)) = [accelerator] /\
  Forall (fun c => backend_side c = accelerator)
    (trace (exec keep_first
              (nms (array {| a_dtype := float32; a_rows := one_box |}) tenth
                 (Some 0)) 0%nat)).
Proof.
  split; [reflexivity|].
  refine (proj2 (proj1 (kernels_follow_residency keep_first 0%nat
            (array {| a_dtype := float32; a_rows := one_box |}) tenth
            default_vis_thr default_sigma default_min_score [] (Some 0)
            "linear" _))).
  discriminate.
Defined.

(** C4 as stated fails for soft_nms: on an accelerator-resident tensor
    its only kernel call is to the host kernel soft_nms_cpu. *)
Lemma soft_nms_runs_on_host_for_cuda_tensor :
  let dets := {| t_device := cuda 0; t_dtype := float32; t_rows := one_box |} in
  torch.is_cuda dets = true /\
  trace (exec keep_first
           (soft_nms (tensor dets) tenth "linear" default_sigma
              default_min_score) 0%nat) =
    [Called (soft_nms_cpu {| a_dtype := float32; a_rows := one_box |} tenth 1
               default_sigma default_min_score)] /\
  map backend_side
    (trace (exec keep_first
              (soft_nms (tensor dets) tenth "linear" default_sigma
                 default_min_score) 0%nat)) = [host].
Proof. repeat split. Qed.

(** ** The representation of the results *)

Lemma astype_dtype (a : ndarray) (d : dtype) : a_dtype (np.astype a d) = d.
Proof. unfold np.astype. destruct (decide (a_dtype a = d)); [assumption|reflexivity]. Qed.

(** The representation of what each entry point returns, as the code has
    it.  Whenever an entry point returns, the kept candidates and the
    indices are of the kind of the input (tensor in, tensors out; array
    in, arrays out).  nms, oks_nms and oks_nms_vis return kept candidates
    of the element type of the input, and so does soft_nms for a tensor;
    an array returned by soft_nms is a float32 array. *)
Lemma results_keep_representation {W : Type} (h : handler W) (w : W)
    (dets : object) (iou_thr vis_thr sigma min_score : float)
    (sigmas : list float) (device_id : option Z) (method : string)
    (kept : object) (inds : index_object) :
  (outcome (exec h (nms dets iou_thr device_id) w) = Ok (kept, inds) ->
   family_of kept = family_of dets /\ index_family_of inds = family_of dets /\
   dtype_of kept = dtype_of dets) /\
  (outcome (exec h (oks_nms dets iou_thr sigmas device_id) w) = Ok (kept, inds) ->
   family_of kept = family_of dets /\ index_family_of inds = family_of dets /\
   dtype_of kept = dtype_of dets) /\
  (outcome (exec h (oks_nms_vis dets iou_thr sigmas vis_thr device_id) w)
     = Ok (kept, inds) ->
   family_of kept = family_of dets /\ index_family_of inds = family_of dets /\
   dtype_of kept = dtype_of dets) /\
  (outcome (exec h (soft_nms dets iou_thr method sigma min_score) w)
     = Ok (kept, inds) ->
   family_of kept = family_of dets /\ index_family_of inds = family_of dets /\
   dtype_of kept = match dets with
                   | array _ => Some float32
                   | _ => dtype_of dets
                   end).
Proof.
  repeat apply conj.
  - destruct dets as [[d dt [|r rs]]|[dt [|r rs]]|ty]; try destruct d;
      try destruct device_id; run_cases h;
      first [discriminate | intros [= <- <-]; repeat split].
  - destruct dets as [[d dt [|r rs]]|[dt [|r rs]]|ty]; try destruct d;
      try destruct device_id; run_cases h;
      first [discriminate | intros [= <- <-]; repeat split].
  - destruct dets as [[d dt [|r rs]]|[dt [|r rs]]|ty]; try destruct d;
      try destruct device_id; run_cases h;
      first [discriminate | intros [= <- <-]; repeat split].
  - destruct dets as [t|a|ty]; cbn; destruct (method_codes !! method);
      run_cases h; first [discriminate | intros [= <- <-]; repeat split].
    cbn. rewrite astype_dtype. reflexivity.
Qed.

(** When soft_nms returns for an array, soft_nms_cpu has answered on that
    array. *)
Lemma soft_nms_returns_after_kernel {W : Type} (h : handler W) (w : W)
    (a : ndarray) (iou_thr sigma min_score : float) (method : string)
    (res : object * index_object) :
  outcome (exec h (soft_nms (array a) iou_thr method sigma min_score) w)
    = Ok res ->
  exists (code : Z) (x : ndarray * list Z),
    (h _ (soft_nms_cpu a iou_thr code sigma min_score) w).1 = Ok x.
Proof.
  cbn. destruct (method_codes !! method) as [code|]; [|discriminate].
  cbn. destruct (h _ (soft_nms_cpu a iou_thr code sigma min_score) w)
    as [[x|e] w'] eqn:E; [|discriminate].
  intros _. exists code, x. rewrite E. reflexivity.
Qed.

Lemma keep_first_float32_kernel : float32_kernel keep_first_float32.
Proof.
  intros a iou_thr method sigma min_score w x. cbn.
  destruct (decide (a_dtype a = float32)) as [Ha|_]; [intros _; exact Ha|].
  discriminate.
Qed.

(** C3. Whenever an entry point returns, the kept candidates and the
    indices are of the kind of the input (tensor in, tensors out; array
    in, arrays out) and the kept candidates have the element type of the
    input.  For nms, oks_nms and oks_nms_vis this holds for every input.
    For soft_nms it holds for every candidate set that is valid for it (a
    tensor, or an array of float32, the element type soft_nms gives the
    arrays it returns), and for every input whatsoever when soft_nms_cpu
    answers on float32 candidates only. *)
Theorem results_in_representation_of_input {W : Type} (h : handler W) (w : W)
    (dets : object) (iou_thr vis_thr sigma min_score : float)
    (sigmas : list float) (device_id : option Z) (method : string)
    (kept : object) (inds : index_object) :
  (outcome (exec h (nms dets iou_thr device_id) w) = Ok (kept, inds) ->
   family_of kept = family_of dets /\ index_family_of inds = family_of dets /\
   dtype_of kept = dtype_of dets) /\
  (outcome (exec h (oks_nms dets iou_thr sigmas device_id) w) = Ok (kept, inds) ->
   family_of kept = family_of dets /\ index_family_of inds = family_of dets /\
   dtype_of kept = dtype_of dets) /\
  (outcome (exec h (oks_nms_vis dets iou_thr sigmas vis_thr device_id) w)
     = Ok (kept, inds) ->
   family_of kept = family_of dets /\ index_family_of inds = family_of dets /\
   dtype_of kept = dtype_of dets) /\
  (outcome (exec h (soft_nms dets iou_thr method sigma min_score) w)
     = Ok (kept, inds) ->
   family_of kept = family_of dets /\ index_family_of inds = family_of dets /\
   (soft_nms_valid dets \/ float32_kernel h -> dtype_of kept = dtype_of dets)).
Proof.
  destruct (results_keep_representation h w dets iou_thr vis_thr sigma
              min_score sigmas device_id method kept inds)
    as (H1 & H2 & H3 & H4).
  repeat apply conj; try assumption.
  intros Hout. destruct (H4 Hout) as (Hf & Hi & Hd).
  repeat apply conj; try assumption.
  intros Hv. rewrite Hd. destruct dets as [t|a|ty]; try reflexivity.
  cbn. f_equal. symmetry. destruct Hv as [Hv|Hk]; [exact Hv|].
  destruct (soft_nms_returns_after_kernel h w a iou_thr sigma min_score
              method (kept, inds) Hout) as (code & x & Hx).
  exact (Hk a iou_thr code sigma min_score w x Hx).
Qed.

Lemma results_in_representation_of_input_witness :
  let dets := array {| a_dtype := float32; a_rows := one_box32 ++ one_box32 |} in
  let kept := array {| a_dtype := float32; a_rows := one_box32 |} in
  float32_kernel keep_first_float32 /\
  family_of kept = family_of dets /\
  index_family_of (long_array [0]) = family_of dets /\
  dtype_of kept = dtype_of dets.
Proof.
  cbv zeta. split; [exact keep_first_float32_kernel|].
  destruct (proj2 (proj2 (proj2
              (results_in_representation_of_input keep_first_float32 0%nat
                 (array {| a_dtype := float32;
                           a_rows := one_box32 ++ one_box32 |})
                 tenth default_vis_thr default_sigma default_min_score []
                 None "gaussian"
                 (array {| a_dtype := float32; a_rows := one_box32 |})
                 (long_array [0]))))
              ltac:(vm_compute; reflexivity)) as (Hf & Hi & Hd).
  exact (conj Hf (conj Hi (Hd (or_intror keep_first_float32_kernel)))).
Defined.

(** ** Kept candidates and indices *)


(** *** The greedy engines select input candidates *)



(** Sorting loses and duplicates no candidate. *)
Lemma insert_by_score_perm (c : suppression.entry) (l : list suppression.entry) :
  suppression.insert_by_score c l ≡ₚ c :: l.
Proof.
  induction l as [|c' l IH]; cbn; [reflexivity|].
  destruct (SFltb _ _); [|reflexivity].
  rewrite IH. apply Permutation_swap.
Qed.

Lemma sort_by_score_perm (l : list suppression.entry) :
  suppression.sort_by_score l ≡ₚ l.
Proof.
  induction l as [|c l IH]; cbn; [reflexivity|].
  rewrite insert_by_score_perm, IH. reflexivity.
Qed.



(** Given enough fuel, the greedy loop does not depend on it: it ends
    because no candidate remains. *)
Lemma suppress_fuel (measure : list float -> list float -> float)
    (thr : float) (fuel1 : nat) :
  forall (fuel2 : nat) (sorted : list suppression.entry),
    (length sorted <= fuel1)%nat -> (length sorted <= fuel2)%nat ->
    suppression.suppress measure thr fuel1 sorted =
      suppression.suppress measure thr fuel2 sorted.
Proof.
  induction fuel1 as [|fuel1 IH]; intros [|fuel2] [|top rest] H1 H2;
    cbn in *; try reflexivity; try lia.
  f_equal.
  match goal with
  | |- context [List.filter ?f rest] =>
      pose proof (List.filter_length_le f rest) as Hf
  end.
  apply le_S_n in H1, H2.
  apply IH; (eapply Nat.le_trans; [exact Hf | assumption]).
Qed.





(** Given enough fuel, the soft-NMS loop does not depend on it. *)
Lemma soft_loop_fuel (iou : dtype -> list float -> list float -> float)
    (exp : float -> float) (d : dtype) (method : Z)
    (iou_thr sigma min_score : float) (fuel1 : nat) :
  forall (fuel2 : nat) (remaining : list suppression.entry),
    (length remaining <= fuel1)%nat -> (length remaining <= fuel2)%nat ->
    suppression.soft_loop iou exp d method iou_thr sigma min_score fuel1
      remaining =
    suppression.soft_loop iou exp d method iou_thr sigma min_score fuel2
      remaining.
Proof.
  induction fuel1 as [|fuel1 IH]; intros [|fuel2] remaining H1 H2.
  - reflexivity.
  - destruct remaining; [reflexivity | cbn in H1; lia].
  - destruct remaining; [reflexivity | cbn in H2; lia].
  - cbn. pose proof (Permutation_length (sort_by_score_perm remaining)) as Hlen.
    destruct (suppression.sort_by_score remaining) as [|top others];
      [reflexivity|].
    f_equal. cbn in Hlen.
    match goal with
    | |- context [List.filter ?f ?l] =>
        pose proof (List.filter_length_le f l) as Hf;
        rewrite length_map in Hf
    end.
    apply IH; (eapply Nat.le_trans; [exact Hf|]); lia.
Qed.





(** *** The entry points against these kernels *)






(** The engines at work on three candidates, the first two on the same
    box: with a measure that is 1 on equal boxes and 0 otherwise, hard
    NMS keeps the higher-scored of the two and the third; linear soft-NMS
    keeps all three, the lower-scored of the two with its score decayed
    to zero, and drops it when min_score is positive. *)
Example engines_example :
  let same_box (_ : dtype) (a b : list float) :=
    if forallb (fun '(x, y) => SFeqb x y) (zip (take 4 a) (take 4 b))
    then unit32 else suppression.zero in
  let low := [tenth32; tenth32; tenth32; tenth32; tenth32] in
  let high := [tenth32; tenth32; tenth32; tenth32; unit32] in
  let apart := [unit32; unit32; unit32; unit32; tenth32] in
  let dets := {| a_dtype := float32; a_rows := [low; high; apart] |} in
  suppression.nms_kernel same_box (torch.from_numpy dets) tenth = [1; 2] /\
  suppression.soft_nms_kernel same_box (fun x => x) dets tenth 1 default_sigma
    suppression.zero =
    ({| a_dtype := float32;
        a_rows := [high; apart;
                   [tenth32; tenth32; tenth32; tenth32; suppression.zero]] |},
     [1; 2; 0]) /\
  suppression.soft_nms_kernel same_box (fun x => x) dets tenth 1 default_sigma
    default_min_score =
    ({| a_dtype := float32; a_rows := [high; apart] |}, [1; 2]).
Proof. cbv zeta. repeat split; vm_compute; reflexivity. Qed.

(** * Further properties of the wrappers *)

(** ** What reaches the kernels *)

(** X1. Every kernel call of every entry point carries the caller's
    candidates, row for row and with their element type, and the caller's
    overlap threshold: nothing is reordered, filtered or converted before
    suppression. *)
Theorem kernels_receive_input_unchanged {W : Type} (h : handler W) (w : W)
    (dets : object) (iou_thr vis_thr sigma min_score : float)
    (sigmas : list float) (device_id : option Z) (method : string) :
  let unchanged c :=
    Some (call_input c).1 = dtype_of dets /\
    (call_input c).2 = candidates dets /\
    call_iou_thr c = iou_thr in
  Forall unchanged (trace (exec h (nms dets iou_thr device_id) w)) /\
  Forall unchanged
    (trace (exec h (soft_nms dets iou_thr method sigma min_score) w)) /\
  Forall unchanged (trace (exec h (oks_nms dets iou_thr sigmas device_id) w)) /\
  Forall unchanged
    (trace (exec h (oks_nms_vis dets iou_thr sigmas vis_thr device_id) w)).
Proof.
  cbv zeta. repeat apply conj.
  - destruct dets as [[d dt [|r rs]]|[dt [|r rs]]|ty]; try destruct d;
      try destruct device_id; solve_trace h.
  - destruct dets as [t|a|ty]; cbn; destruct (method_codes !! method);
      solve_trace h.
  - destruct dets as [[d dt [|r rs]]|[dt [|r rs]]|ty]; try destruct d;
      try destruct device_id; solve_trace h.
  - destruct dets as [[d dt [|r rs]]|[dt [|r rs]]|ty]; try destruct d;
      try destruct device_id; solve_trace h.
Qed.

(** X2. soft_nms on a tensor or an array makes exactly one kernel call, to
    soft_nms_cpu on the host copy of the candidates, with method code 1
    for 'linear' and 2 for 'gaussian' and with sigma and min_score as
    given. *)
Theorem soft_nms_kernel_call {W : Type} (h : handler W) (w : W)
    (dets : object) (iou_thr sigma min_score : float) (method : string) (code : Z) :
  is_container dets = true ->
  (method, code) = ("linear", 1) \/ (method, code) = ("gaussian", 2) ->
  exists dt,
    dtype_of dets = Some dt /\
    trace (exec h (soft_nms dets iou_thr method sigma min_score) w) =
      [Called (soft_nms_cpu {| a_dtype := dt; a_rows := candidates dets |}
                 iou_thr code sigma min_score)].
Proof.
  intros Hd Hm.
  destruct dets as [[d dt rows]|[dt rows]|ty]; try discriminate; exists dt;
    (split; [reflexivity|]);
    destruct Hm as [[= -> ->]|[= -> ->]]; cbn;
    rewrite ?method_codes_linear, ?method_codes_gaussian; run_cases h;
    reflexivity.
Qed.

Lemma soft_nms_kernel_call_witness :
  exists dt,
    dtype_of (tensor {| t_device := cuda 1; t_dtype := float16;
                        t_rows := one_box |}) = Some dt /\
    trace (exec keep_first
             (soft_nms (tensor {| t_device := cuda 1; t_dtype := float16;
                                  t_rows := one_box |})
                tenth "gaussian" default_sigma default_min_score) 0%nat) =
      [Called (soft_nms_cpu {| a_dtype := dt; a_rows := one_box |} tenth 2
                 default_sigma default_min_score)].
Proof.
  refine (soft_nms_kernel_call keep_first 0%nat
            (tensor {| t_device := cuda 1; t_dtype := float16;
                       t_rows := one_box |})
            tenth default_sigma default_min_score "gaussian" 2 _ _).
  - reflexivity.
  - right; reflexivity.
Defined.

(** ** The Python reference kernel on the host path *)

(** X3. What oks_nms_py answers has no influence on oks_nms and oks_nms_vis:
    against two kernel behaviours that differ only in the indices the
    reference kernel answers, every call runs the same. *)
Theorem oks_reference_answer_is_discarded {W : Type} (h1 h2 : handler W) :
  (forall (X : Type) (b : backend X) (w : W),
     is_reference_call b = false -> h1 X b w = h2 X b w) ->
  (forall (X : Type) (b : backend X) (w : W),
     is_reference_call b = true ->
     (h1 X b w).2 = (h2 X b w).2 /\
     exists x1 x2, (h1 X b w).1 = Ok x1 /\ (h2 X b w).1 = Ok x2) ->
  forall (w : W) (kpts : object) (iou_thr vis_thr : float)
         (sigmas : list float) (device_id : option Z),
    exec h1 (oks_nms kpts iou_thr sigmas device_id) w =
      exec h2 (oks_nms kpts iou_thr sigmas device_id) w /\
    exec h1 (oks_nms_vis kpts iou_thr sigmas vis_thr device_id) w =
      exec h2 (oks_nms_vis kpts iou_thr sigmas vis_thr device_id) w.
Proof.
  intros Hsame Hpy w kpts iou_thr vis_thr sigmas device_id.
  split;
    destruct kpts as [[d dt [|r rs]]|[dt [|r rs]]|ty]; try destruct d;
    try destruct device_id; try reflexivity; cbn;
    rewrite <- (Hsame _ _ w) by reflexivity;
    destruct (h1 _ _ w) as [[l|e] w']; cbn; try reflexivity;
    try (destruct (take_rows _ _); reflexivity);
    match goal with
    | |- context [h2 ?X ?b w'] =>
        destruct (Hpy X b w' eq_refl) as (Hw & x1 & x2 & Hx1 & Hx2);
        destruct (h1 X b w') as [r1 w1], (h2 X b w') as [r2 w2];
        cbn in Hw, Hx1, Hx2; subst; cbn
    end; destruct (take_rows _ _); reflexivity.
Qed.

Lemma oks_reference_answer_is_discarded_witness :
  exec keep_first
    (oks_nms (array {| a_dtype := float32; a_rows := one_box ++ one_box32 |})
       tenth [ten] None) 0%nat =
  exec (keep_first_reference_answers [1; 0])
    (oks_nms (array {| a_dtype := float32; a_rows := one_box ++ one_box32 |})
       tenth [ten] None) 0%nat.
Proof.
  refine (proj1 (oks_reference_answer_is_discarded keep_first
                   (keep_first_reference_answers [1; 0]) _ _ 0%nat
                   (array {| a_dtype := float32;
                             a_rows := one_box ++ one_box32 |})
                   tenth default_vis_thr [ten] None)).
  - intros X b w Hb. destruct b; first [discriminate Hb | reflexivity].
  - intros X b w Hb. destruct b; try discriminate Hb.
    split; [reflexivity|]. eexists _, _. split; reflexivity.
Defined.

(** X4. On the host path a failure of oks_nms_py fails the whole call,
    although oks_nms_cpu has already answered the indices. *)
Theorem oks_reference_failure_fails_call {W : Type} (h : handler W)
    (w w' w'' : W) (dt : dtype) (r : list float) (rs : list (list float))
    (iou_thr vis_thr : float) (sigmas : list float) (l : LongTensor)
    (e : exception) :
  let t := {| t_device := cpu; t_dtype := dt; t_rows := r :: rs |} in
  let a := {| a_dtype := dt; a_rows := r :: rs |} in
  let s := torch.FloatTensor (map (fun s => truediv s ten) sigmas) in
  h _ (oks_nms_cpu_oks_nms t iou_thr s) w = (Ok l, w') ->
  h _ (oks_nms_py_oks_nms a iou_thr s) w' = (Raised e, w'') ->
  forall (kpts : object) (device_id : option Z),
    (kpts, device_id) = (array a, None) \/ kpts = tensor t ->
    outcome (exec h (oks_nms kpts iou_thr sigmas device_id) w) = Raised e /\
    outcome (exec h (oks_nms_vis kpts iou_thr sigmas vis_thr device_id) w)
      = Raised e.
Proof.
  cbv zeta. intros Hcpu Hpy kpts device_id [[= -> ->]| ->];
    cbn in Hcpu, Hpy |- *;
    cbv [torch.to torch.from_numpy torch.numpy torch.vector_numpy
         t_device t_dtype t_rows a_dtype a_rows];
    rewrite Hcpu; cbn;
    cbv [torch.to torch.from_numpy torch.numpy torch.vector_numpy
         t_device t_dtype t_rows a_dtype a_rows];
    rewrite Hpy; cbn; split; reflexivity.
Qed.

Lemma oks_reference_failure_fails_call_witness :
  outcome (exec (keep_first_reference_raises (RuntimeError "reference"))
             (oks_nms (array {| a_dtype := float32; a_rows := one_box |})
                tenth [ten] None) 0%nat) = Raised (RuntimeError "reference").
Proof.
  refine (proj1 (oks_reference_failure_fails_call
                   (keep_first_reference_raises (RuntimeError "reference"))
                   0%nat 1%nat 2%nat float32
                   [tenth; tenth; tenth; tenth; tenth] [] tenth default_vis_thr
                   [ten] {| l_device := cpu; l_data := [0] |}
                   (RuntimeError "reference") _ _ _ None _)).
  - reflexivity.
  - reflexivity.
  - left; reflexivity.
Defined.

(** ** Failing kernels *)

(** X5. When the kernels raise, the exception of the first kernel call is the
    outcome of the entry point: on a non-empty tensor or array each entry
    point makes one kernel call and ends with that kernel's exception,
    without trying another kernel. *)
Theorem kernel_exception_propagates {W : Type} (h : handler W) (w : W)
    (e : exception) (dets : object) (iou_thr vis_thr sigma min_score : float)
    (sigmas : list float) (device_id : option Z) (method : string) :
  (forall (X : Type) (b : backend X) (w : W), (h X b w).1 = Raised e) ->
  candidates dets <> [] ->
  (outcome (exec h (nms dets iou_thr device_id) w) = Raised e /\
   length (trace (exec h (nms dets iou_thr device_id) w)) = 1%nat) /\
  (outcome (exec h (oks_nms dets iou_thr sigmas device_id) w) = Raised e /\
   length (trace (exec h (oks_nms dets iou_thr sigmas device_id) w)) = 1%nat) /\
  (outcome (exec h (oks_nms_vis dets iou_thr sigmas vis_thr device_id) w)
     = Raised e /\
   length (trace (exec h (oks_nms_vis dets iou_thr sigmas vis_thr device_id) w))
     = 1%nat) /\
  (method = "linear" \/ method = "gaussian" ->
   outcome (exec h (soft_nms dets iou_thr method sigma min_score) w) = Raised e /\
   length (trace (exec h (soft_nms dets iou_thr method sigma min_score) w))
     = 1%nat).
Proof.
  intros Hh Hne.
  assert (Hcall : forall (X A : Type) (b : backend X) (k : X -> Prog A),
            exec h (Call b k) w =
              {| outcome := Raised e; trace := [Called b];
                 world := (h X b w).2 |}).
  { intros X A b k. cbn. specialize (Hh X b w).
    destruct (h X b w) as [res w']. cbn in Hh. subst res. reflexivity. }
  destruct dets as [[d dt [|r rs]]|[dt [|r rs]]|ty];
    try (exfalso; apply Hne; reflexivity); clear Hne.
  - repeat apply conj.
    1-6: destruct d; cbn -[exec]; rewrite Hcall; reflexivity.
    all: intros [->| ->]; cbn -[exec];
      rewrite ?method_codes_linear, ?method_codes_gaussian; cbn -[exec];
      rewrite Hcall; split; reflexivity.
  - repeat apply conj.
    1-6: destruct device_id; cbn -[exec]; rewrite Hcall; reflexivity.
    all: intros [->| ->]; cbn -[exec];
      rewrite ?method_codes_linear, ?method_codes_gaussian; cbn -[exec];
      rewrite Hcall; split; reflexivity.
Qed.

Lemma kernel_exception_propagates_witness :
  outcome (exec (always_raise (RuntimeError "CUDA error"))
             (nms (tensor {| t_device := cuda 0; t_dtype := float32;
                             t_rows := one_box32 |}) tenth None) 0%nat)
    = Raised (RuntimeError "CUDA error").
Proof.
  refine (proj1 (proj1 (kernel_exception_propagates
            (always_raise (RuntimeError "CUDA error")) 0%nat
            (RuntimeError "CUDA error")
            (tensor {| t_device := cuda 0; t_dtype := float32;
                       t_rows := one_box32 |})
            tenth default_vis_thr default_sigma default_min_score [] None
            "linear" _ _))).
  - intros X b w. reflexivity.
  - discriminate.
Defined.

(** ** Results on the device of the input *)

(** X6. The kept candidates an entry point returns for a tensor are on the
    device of that tensor; soft_nms returns the indices there too. *)
Theorem tensor_results_stay_on_device {W : Type} (h : handler W) (w : W)
    (t : Tensor) (iou_thr vis_thr sigma min_score : float)
    (sigmas : list float) (device_id : option Z) (method : string)
    (kept : object) (inds : index_object) :
  (outcome (exec h (nms (tensor t) iou_thr device_id) w) = Ok (kept, inds) ->
   device_of kept = Some (t_device t)) /\
  (outcome (exec h (oks_nms (tensor t) iou_thr sigmas device_id) w)
     = Ok (kept, inds) ->
   device_of kept = Some (t_device t)) /\
  (outcome (exec h (oks_nms_vis (tensor t) iou_thr sigmas vis_thr device_id) w)
     = Ok (kept, inds) ->
   device_of kept = Some (t_device t)) /\
  (outcome (exec h (soft_nms (tensor t) iou_thr method sigma min_score) w)
     = Ok (kept, inds) ->
   device_of kept = Some (t_device t) /\
   index_device_of inds = Some (t_device t)).
Proof.
  destruct t as [d dt rows]. repeat apply conj.
  1-3: destruct rows as [|r rs]; destruct d; run_cases h;
    first [discriminate | intros [= <- <-]; reflexivity].
  cbn. destruct (method_codes !! method); run_cases h;
    first [discriminate | intros [= <- <-]; split; reflexivity].
Qed.

Lemma tensor_results_stay_on_device_witness :
  device_of (tensor {| t_device := cuda 3; t_dtype := float32;
                       t_rows := one_box32 |}) = Some (cuda 3).
Proof.
  refine (proj1 (tensor_results_stay_on_device keep_first 0%nat
            {| t_device := cuda 3; t_dtype := float32;
               t_rows := one_box32 ++ one_box32 |}
            tenth default_vis_thr default_sigma default_min_score [] None
            "linear"
            (tensor {| t_device := cuda 3; t_dtype := float32;
                       t_rows := one_box32 |})
            (long_tensor {| l_device := cuda 3; l_data := [0] |})) _).
  reflexivity.
Defined.

(** ** Kept candidates, whatever the kernels answer *)

Lemma take_rows_Some (rows kept : list (list float)) (inds : list Z) :
  take_rows rows inds = Some kept ->
  Forall2 (fun row i =>
             - Z.of_nat (length rows) <= i < Z.of_nat (length rows) /\
             row ∈ rows) kept inds.
Proof.
  unfold take_rows. revert kept.
  induction inds as [|i inds IH]; intros kept H.
  - cbn in H. injection H as <-. constructor.
  - cbn [mapM] in H.
    destruct (normalize_index (length rows) i) as [j|] eqn:Hi; [|discriminate].
    cbn in H. destruct (rows !! j) as [row|] eqn:Hrow; [|discriminate].
    cbn in H.
    destruct (mapM _ inds) as [kept'|] eqn:Hrest; [|discriminate].
    cbn in H. injection H as <-. constructor; [|apply IH; reflexivity].
    split.
    + unfold normalize_index in Hi.
      repeat case_bool_decide; try discriminate; lia.
    + eapply list_elem_of_lookup_2. exact Hrow.
Qed.

(** X7. Whenever nms, oks_nms or oks_nms_vis returns, and whatever the
    kernels answered, there are as many kept candidates as indices, each
    kept candidate is one of the input candidates, and each index [i]
    satisfies [-n <= i < n] for the number [n] of input candidates. *)
Theorem returned_candidates_come_from_input {W : Type} (h : handler W) (w : W)
    (dets : object) (iou_thr vis_thr : float) (sigmas : list float)
    (device_id : option Z) (kept : object) (inds : index_object) :
  let n := Z.of_nat (length (candidates dets)) in
  let from_input :=
    Forall2 (fun row i => - n <= i < n /\ row ∈ candidates dets)
      (candidates kept) (index_data inds) in
  (outcome (exec h (nms dets iou_thr device_id) w) = Ok (kept, inds) ->
   from_input) /\
  (outcome (exec h (oks_nms dets iou_thr sigmas device_id) w) = Ok (kept, inds) ->
   from_input) /\
  (outcome (exec h (oks_nms_vis dets iou_thr sigmas vis_thr device_id) w)
     = Ok (kept, inds) ->
   from_input).
Proof.
  cbv zeta. repeat apply conj;
    destruct dets as [[d dt [|r rs]]|[dt [|r rs]]|ty]; try destruct d;
    try destruct device_id;
    repeat (cbn;
            match goal with
            | |- context [h ?X ?b ?w] => destruct (h X b w) as [[?|?] ?]
            | |- context [take_rows ?rows ?ix] =>
                let H := fresh "Hrows" in
                destruct (take_rows rows ix) eqn:H;
                [apply take_rows_Some in H|]
            end);
    cbn; first [discriminate | intros [= <- <-]; first [constructor | assumption]].
Qed.

Lemma returned_candidates_come_from_input_witness :
  Forall2 (fun (row : list float) (i : Z) =>
             - 2 <= i < 2 /\ row ∈ (one_box ++ one_box32)%list)
    one_box [0].
Proof.
  refine (proj1 (returned_candidates_come_from_input keep_first 0%nat
            (array {| a_dtype := float64; a_rows := one_box ++ one_box32 |})
            tenth default_vis_thr [] (Some 0)
            (array {| a_dtype := float64; a_rows := one_box |})
            (long_array [0])) _).
  reflexivity.
Defined.

(** * Properties of the array transforms *)

Import transforms.

Arguments mirror : simpl never.

Lemma res_bind_Done {A B : Type} (r : res A) (f : A -> res B) (b : B) :
  r ≫= f = Done b -> exists a, r = Done a /\ f a = Done b.
Proof. destruct r as [a|e]; [eauto | discriminate]. Qed.

(** ** RandomFlip.bbox_flip *)

Lemma flip_row_horizontal (d : dtype) (w : Z) (n : nat) :
  forall row : list float,
    length row = (4 * n)%nat ->
    (r1 ← assign_every 4 0 row (map (mirror d w) (every 4 2 row));
     assign_every 4 2 r1 (map (mirror d w) (every 4 0 row)))
    = Done (RandomFlip.flip_boxes_horizontal d w row).
Proof.
  induction n as [|n IH]; intros row Hlen.
  - destruct row; [reflexivity | discriminate].
  - destruct row as [|a [|b [|c [|e rest]]]]; simpl in Hlen; try lia.
    specialize (IH rest ltac:(lia)).
    apply res_bind_Done in IH as (l & Hl & Hl2).
    cbn. rewrite Hl. cbn. rewrite Hl2. reflexivity.
Qed.

Lemma flip_row_vertical (d : dtype) (h : Z) (n : nat) :
  forall row : list float,
    length row = (4 * n)%nat ->
    (r1 ← assign_every 4 1 row (map (mirror d h) (every 4 3 row));
     assign_every 4 3 r1 (map (mirror d h) (every 4 1 row)))
    = Done (RandomFlip.flip_boxes_vertical d h row).
Proof.
  induction n as [|n IH]; intros row Hlen.
  - destruct row; [reflexivity | discriminate].
  - destruct row as [|a [|b [|c [|e rest]]]]; simpl in Hlen; try lia.
    specialize (IH rest ltac:(lia)).
    apply res_bind_Done in IH as (l & Hl & Hl2).
    cbn. rewrite Hl. cbn. rewrite Hl2. reflexivity.
Qed.

(** Two column assignments over all rows, each reading the original
    rows. *)
Lemma two_passes_over_rows (s1 s2 : nat) (g1 g2 F : list float -> list float)
    (rows : list (list float)) :
  Forall (fun r => (r1 ← assign_every 4 s1 r (g1 r); assign_every 4 s2 r1 (g2 r))
                   = Done (F r)) rows ->
  (flipped ← assign_columns 4 s1 rows (map g1 rows);
   assign_columns 4 s2 flipped (map g2 rows)) = Done (map F rows).
Proof.
  induction 1 as [|r rows Hr _ IH]; [reflexivity|].
  apply res_bind_Done in Hr as (r1 & Hr1 & Hr2).
  apply res_bind_Done in IH as (rows1 & Hrows1 & Hrows2).
  cbn. rewrite Hr1. cbn. rewrite Hrows1. cbn. rewrite Hr2. cbn.
  rewrite Hrows2. reflexivity.
Qed.

Lemma flip_boxes_horizontal_length (d : dtype) (w : Z) (n : nat) :
  forall row : list float,
    length row = (4 * n)%nat ->
    length (RandomFlip.flip_boxes_horizontal d w row) = length row.
Proof.
  induction n as [|n IH]; intros row Hlen.
  - destruct row; [reflexivity | discriminate].
  - destruct row as [|a [|b [|c [|e rest]]]]; simpl in Hlen; try lia.
    cbn. rewrite (IH rest) by lia. reflexivity.
Qed.

Lemma flip_boxes_vertical_length (d : dtype) (h : Z) (n : nat) :
  forall row : list float,
    length row = (4 * n)%nat ->
    length (RandomFlip.flip_boxes_vertical d h row) = length row.
Proof.
  induction n as [|n IH]; intros row Hlen.
  - destruct row; [reflexivity | discriminate].
  - destruct row as [|a [|b [|c [|e rest]]]]; simpl in Hlen; try lia.
    cbn. rewrite (IH rest) by lia. reflexivity.
Qed.

(** X8. On an array of whole boxes (4k columns) the slice assignments of
    bbox_flip amount to a flip box by box: a horizontal flip turns each
    [x1, y1, x2, y2] into [w - x2 - 1, y1, w - x1 - 1, y2], a vertical
    flip into [x1, h - y2 - 1, x2, h - y1 - 1], in the arithmetic of the
    array's element type; the shape is unchanged. *)
Theorem bbox_flip_box_by_box (bboxes : RandomFlip.boxes) (img_shape : list Z) :
  RandomFlip.well_formed bboxes ->
  (RandomFlip.b_cols bboxes mod 4 = 0)%nat ->
  let d := RandomFlip.b_dtype bboxes in
  let flipped_by F :=
    {| RandomFlip.b_dtype := d;
       RandomFlip.b_cols := RandomFlip.b_cols bboxes;
       RandomFlip.b_rows := map F (RandomFlip.b_rows bboxes) |} in
  (forall w, img_shape !! 1%nat = Some w ->
     RandomFlip.bbox_flip bboxes img_shape "horizontal"
       = Done (flipped_by (RandomFlip.flip_boxes_horizontal d w)) /\
     RandomFlip.well_formed (flipped_by (RandomFlip.flip_boxes_horizontal d w))) /\
  (forall h, img_shape !! 0%nat = Some h ->
     RandomFlip.bbox_flip bboxes img_shape "vertical"
       = Done (flipped_by (RandomFlip.flip_boxes_vertical d h)) /\
     RandomFlip.well_formed (flipped_by (RandomFlip.flip_boxes_vertical d h))).
Proof.
  intros Hwf Hcols. cbv zeta.
  destruct bboxes as [d cols rows]. unfold RandomFlip.well_formed in *.
  cbn [RandomFlip.b_cols RandomFlip.b_rows RandomFlip.b_dtype] in *.
  assert (Hn : exists n, cols = (4 * n)%nat).
  { exists (cols / 4)%nat. pose proof (Nat.div_mod_eq cols 4). lia. }
  destruct Hn as [n ->].
  split.
  - intros w Hw. split.
    + unfold RandomFlip.bbox_flip, tuple_item.
      cbn [RandomFlip.b_cols RandomFlip.b_rows RandomFlip.b_dtype].
      rewrite Hcols, Hw. cbn.
      pose proof (two_passes_over_rows 0 2
                    (fun r => map (mirror d w) (every 4 2 r))
                    (fun r => map (mirror d w) (every 4 0 r))
                    (RandomFlip.flip_boxes_horizontal d w) rows) as H.
      apply res_bind_Done in H as (rows1 & H1 & H2).
      * rewrite H1. cbn. rewrite H2. reflexivity.
      * eapply Forall_impl; [exact Hwf|]. intros r Hr.
        apply (flip_row_horizontal d w n r Hr).
    + cbn. apply Forall_map. eapply Forall_impl; [exact Hwf|].
      intros r Hr. cbn. rewrite (flip_boxes_horizontal_length d w n r Hr).
      exact Hr.
  - intros h Hh. split.
    + unfold RandomFlip.bbox_flip, tuple_item.
      cbn [RandomFlip.b_cols RandomFlip.b_rows RandomFlip.b_dtype].
      rewrite Hcols, Hh. cbn.
      pose proof (two_passes_over_rows 1 3
                    (fun r => map (mirror d h) (every 4 3 r))
                    (fun r => map (mirror d h) (every 4 1 r))
                    (RandomFlip.flip_boxes_vertical d h) rows) as H.
      apply res_bind_Done in H as (rows1 & H1 & H2).
      * rewrite H1. cbn. rewrite H2. reflexivity.
      * eapply Forall_impl; [exact Hwf|]. intros r Hr.
        apply (flip_row_vertical d h n r Hr).
    + cbn. apply Forall_map. eapply Forall_impl; [exact Hwf|].
      intros r Hr. cbn. rewrite (flip_boxes_vertical_length d h n r Hr).
      exact Hr.
Qed.

(** ** RandomFlip.kpts_flip *)

Lemma mapM_Done {A B : Type} (f : A -> res B) (g : A -> B) (l : list A) :
  Forall (fun x => f x = Done (g x)) l -> mapM f l = Done (map g l).
Proof.
  induction 1 as [|x l Hx _ IH]; [reflexivity|].
  cbn. rewrite Hx. cbn. rewrite IH. reflexivity.
Qed.

Lemma column_of_instances (k i : nat) (data : list (list (list float))) :
  (i < k)%nat -> Forall (fun inst => length inst = k) data ->
  RandomFlip.column k data i = Done (map (fun o => default [] (o !! i)) data).
Proof.
  intros Hi Hdata. unfold RandomFlip.column.
  destruct (decide (i < k)%nat) as [_|]; [|lia].
  apply mapM_Done. eapply Forall_impl; [exact Hdata|].
  intros o Ho. cbn in Ho.
  destruct (lookup_lt_is_Some_2 o i) as [pt ->]; [lia|]. reflexivity.
Qed.

Lemma set_column_of_instances (k i : nat)
    (G : list (list float) -> list (list float))
    (v : list (list float) -> list float) (data : list (list (list float))) :
  (i < k)%nat ->
  RandomFlip.set_column k (map G data) i (map v data)
    = Done (map (fun o => <[i := v o]> (G o)) data).
Proof.
  intros Hi. unfold RandomFlip.set_column.
  destruct (decide (i < k)%nat) as [_|]; [|lia].
  f_equal. induction data as [|o data IH]; [reflexivity|].
  cbn. rewrite IH. reflexivity.
Qed.

Lemma swap_loop_instance_wise (k : nat) (data : list (list (list float)))
    (items : list (string * string)) (ids : list (nat * nat)) :
  Forall (fun inst => length inst = k) data ->
  Forall2 (fun '(lkp, rkp) '(lid, rid) =>
             RandomFlip.index lkp RandomFlip.keypoints = Done lid /\
             RandomFlip.index rkp RandomFlip.keypoints = Done rid /\
             (lid < k)%nat /\ (rid < k)%nat) items ids ->
  forall G : list (list float) -> list (list float),
    RandomFlip.swap_loop k data (map G data) items
      = Done (map (fun o => RandomFlip.exchange_in o (G o) ids) data).
Proof.
  intros Hdata. induction 1 as [|[lkp rkp] [lid rid] items ids H _ IH]; intros G.
  - reflexivity.
  - destruct H as (Hl & Hr & Hlid & Hrid).
    cbn [RandomFlip.swap_loop]. rewrite Hl, Hr. cbn [mbind res_bind].
    rewrite (column_of_instances k rid data Hrid Hdata). cbn [mbind res_bind].
    rewrite (set_column_of_instances k lid G
               (fun o => default [] (o !! rid)) data Hlid).
    cbn [mbind res_bind].
    rewrite (column_of_instances k lid data Hlid Hdata). cbn [mbind res_bind].
    rewrite (set_column_of_instances k rid
               (fun o => <[lid := default [] (o !! rid)]> (G o))
               (fun o => default [] (o !! lid)) data Hrid).
    cbn [mbind res_bind].
    rewrite IH. reflexivity.
Qed.

Lemma exchange_in_exchange_sides (inst : list (list float)) :
  (17 <= length inst)%nat ->
  RandomFlip.exchange_in inst inst RandomFlip.flip_positions
    = RandomFlip.exchange_sides inst.
Proof.
  intros Hlen.
  do 17 (destruct inst as [|? inst]; [cbn in Hlen; lia|]).
  reflexivity.
Qed.

Lemma swap_loop_exchanges_sides (k : nat) (data : list (list (list float))) :
  (17 <= k)%nat -> Forall (fun inst => length inst = k) data ->
  RandomFlip.swap_loop k data data RandomFlip.keypoint_flip_map
    = Done (map RandomFlip.exchange_sides data).
Proof.
  intros Hk Hdata.
  pose proof (swap_loop_instance_wise k data RandomFlip.keypoint_flip_map
                RandomFlip.flip_positions Hdata) as H.
  rewrite <- (map_id data) at 2. rewrite H.
  - f_equal. apply map_ext_Forall. eapply Forall_impl; [exact Hdata|].
    intros o Ho. cbn in Ho. apply exchange_in_exchange_sides. lia.
  - unfold RandomFlip.keypoint_flip_map, RandomFlip.flip_positions.
    repeat constructor; lia.
Qed.

(** What kpts_flip does to one keypoint after the exchange. *)
Lemma kpts_flip_keypoint_wise (kps : RandomFlip.keypoint_array)
    (img_shape : list Z) (width : Z) :
  RandomFlip.well_shaped kps ->
  (17 <= RandomFlip.k_num kps)%nat -> (3 <= RandomFlip.k_dim kps)%nat ->
  img_shape !! 1%nat = Some width ->
  RandomFlip.kpts_flip kps img_shape =
    Done {| RandomFlip.k_dtype := RandomFlip.k_dtype kps;
            RandomFlip.k_num := RandomFlip.k_num kps;
            RandomFlip.k_dim := RandomFlip.k_dim kps;
            RandomFlip.k_data :=
              map (fun inst =>
                     map (fun pt =>
                            RandomFlip.zero_invisible
                              (RandomFlip.flip_x (RandomFlip.k_dtype kps) width pt))
                       (RandomFlip.exchange_sides inst))
                (RandomFlip.k_data kps) |}.
Proof.
  intros Hshape Hk Hdim Hw. unfold RandomFlip.kpts_flip, tuple_item.
  rewrite Hw. cbn [mbind res_bind].
  rewrite swap_loop_exchanges_sides; [|exact Hk|].
  - cbn [mbind res_bind].
    destruct (decide (RandomFlip.k_dim kps < 1)%nat); [lia|].
    destruct (decide (RandomFlip.k_dim kps < 3)%nat); [lia|].
    do 2 f_equal. rewrite !map_map. apply map_ext. intros inst.
    rewrite !map_map. reflexivity.
  - eapply Forall_impl; [exact Hshape|]. intros inst [Hi _]. exact Hi.
Qed.

Lemma exchange_pairs_Permutation {A : Type} (n : nat) :
  forall l : list A, (length l <= n)%nat ->
    Permutation (RandomFlip.exchange_pairs l) l.
Proof.
  induction n as [|n IH]; intros l Hl.
  - destruct l; [reflexivity | cbn in Hl; lia].
  - destruct l as [|a [|b rest]]; try reflexivity.
    cbn. rewrite (IH rest) by (cbn in Hl; lia). apply perm_swap.
Qed.

Lemma exchange_sides_Permutation {A : Type} (inst : list A) :
  Permutation (RandomFlip.exchange_sides inst) inst.
Proof.
  destruct inst as [|nose rest]; [reflexivity|].
  cbn. constructor.
  rewrite (exchange_pairs_Permutation (length (take 16 rest)) _ (le_n _)).
  rewrite take_drop. reflexivity.
Qed.

Lemma exchange_pairs_map {A B : Type} (f : A -> B) (n : nat) :
  forall l : list A, (length l <= n)%nat ->
    RandomFlip.exchange_pairs (map f l) = map f (RandomFlip.exchange_pairs l).
Proof.
  induction n as [|n IH]; intros l Hl.
  - destruct l; [reflexivity | cbn in Hl; lia].
  - destruct l as [|a [|b rest]]; try reflexivity.
    cbn. rewrite (IH rest) by (cbn in Hl; lia). reflexivity.
Qed.

Lemma exchange_sides_map {A B : Type} (f : A -> B) (inst : list A) :
  RandomFlip.exchange_sides (map f inst) = map f (RandomFlip.exchange_sides inst).
Proof.
  destruct inst as [|nose rest]; [reflexivity|].
  cbn. f_equal. rewrite firstn_map, skipn_map.
  rewrite (exchange_pairs_map f (length (take 16 rest)) _ (le_n _)).
  rewrite map_app. reflexivity.
Qed.

Lemma exchange_sides_involutive {A : Type} (inst : list A) :
  (17 <= length inst)%nat ->
  RandomFlip.exchange_sides (RandomFlip.exchange_sides inst) = inst.
Proof.
  intros Hlen.
  do 17 (destruct inst as [|? inst]; [cbn in Hlen; lia|]).
  reflexivity.
Qed.

Lemma flip_x_length (d : dtype) (w : Z) (pt : list float) :
  length (RandomFlip.flip_x d w pt) = length pt.
Proof. destruct pt; reflexivity. Qed.

Lemma zero_invisible_length (pt : list float) :
  length (RandomFlip.zero_invisible pt) = length pt.
Proof.
  unfold RandomFlip.zero_invisible. destruct (pt !! 2%nat) as [v|]; [|reflexivity].
  destruct (SFeqb v RandomFlip.zero); [apply length_replicate | reflexivity].
Qed.

(** After [zero_invisible], an invisible keypoint is all zeros. *)
Lemma zero_invisible_convention (pt : list float) :
  RandomFlip.invisible (RandomFlip.zero_invisible pt) = true ->
  RandomFlip.zero_invisible pt = replicate (length pt) RandomFlip.zero.
Proof.
  unfold RandomFlip.zero_invisible, RandomFlip.invisible.
  destruct (pt !! 2%nat) as [v|] eqn:Hv.
  - destruct (SFeqb v RandomFlip.zero) eqn:Hz; [reflexivity|].
    rewrite Hv, Hz. discriminate.
  - rewrite Hv. discriminate.
Qed.

(** The flip of one keypoint keeps it visible or invisible. *)
Lemma keypoint_flip_invisible (d : dtype) (w : Z) (pt : list float) :
  (3 <= length pt)%nat ->
  RandomFlip.invisible (RandomFlip.zero_invisible (RandomFlip.flip_x d w pt))
    = RandomFlip.invisible pt.
Proof.
  intros Hlen. destruct pt as [|x [|y [|v more]]]; cbn in Hlen; try lia.
  unfold RandomFlip.zero_invisible, RandomFlip.invisible. cbn.
  destruct (SFeqb v RandomFlip.zero) eqn:Hz; cbn; [reflexivity | exact Hz].
Qed.

Lemma filter_length_Permutation {A : Type} (f : A -> bool) (l l' : list A) :
  Permutation l l' -> length (List.filter f l) = length (List.filter f l').
Proof.
  induction 1 as [|x l l' _ IH|x y l|l l' l'' _ IH1 _ IH2]; cbn.
  - reflexivity.
  - destruct (f x); cbn; rewrite IH; reflexivity.
  - destruct (f x), (f y); reflexivity.
  - rewrite IH1. exact IH2.
Qed.

Lemma kpts_flip_well_shaped (kps : RandomFlip.keypoint_array) (d : dtype)
    (width : Z) :
  RandomFlip.well_shaped kps ->
  RandomFlip.well_shaped
    {| RandomFlip.k_dtype := d;
       RandomFlip.k_num := RandomFlip.k_num kps;
       RandomFlip.k_dim := RandomFlip.k_dim kps;
       RandomFlip.k_data :=
         map (fun inst =>
                map (fun pt => RandomFlip.zero_invisible (RandomFlip.flip_x d width pt))
                  (RandomFlip.exchange_sides inst))
           (RandomFlip.k_data kps) |}.
Proof.
  unfold RandomFlip.well_shaped. cbn. intros H.
  apply Forall_map. eapply Forall_impl; [exact H|].
  intros inst [Hlen Hpts]. cbn.
  pose proof (exchange_sides_Permutation inst) as Hperm. split.
  - rewrite length_map. rewrite (Permutation_length Hperm). exact Hlen.
  - apply Forall_map. rewrite Hperm. eapply Forall_impl; [exact Hpts|].
    intros pt Hpt. cbn. rewrite zero_invisible_length, flip_x_length. exact Hpt.
Qed.

(** X9. kpts_flip returns an array of the shape of its input in which the
    COCO convention holds: every keypoint whose visibility equals 0 has
    all its entries equal to 0. *)
Theorem kpts_flip_keeps_coco_convention (kps : RandomFlip.keypoint_array)
    (img_shape : list Z) (width : Z) :
  RandomFlip.well_shaped kps ->
  (17 <= RandomFlip.k_num kps)%nat -> (3 <= RandomFlip.k_dim kps)%nat ->
  img_shape !! 1%nat = Some width ->
  exists flipped,
    RandomFlip.kpts_flip kps img_shape = Done flipped /\
    RandomFlip.k_num flipped = RandomFlip.k_num kps /\
    RandomFlip.k_dim flipped = RandomFlip.k_dim kps /\
    RandomFlip.well_shaped flipped /\
    Forall (Forall (fun pt =>
                      RandomFlip.invisible pt = true ->
                      pt = replicate (RandomFlip.k_dim kps) RandomFlip.zero))
      (RandomFlip.k_data flipped).
Proof.
  intros Hshape Hk Hdim Hw. eexists. split.
  { apply kpts_flip_keypoint_wise; eassumption. }
  split; [reflexivity|]. split; [reflexivity|].
  split; [apply kpts_flip_well_shaped; exact Hshape|].
  cbn. apply Forall_map. eapply Forall_impl; [exact Hshape|].
  intros inst [_ Hpts]. cbn. apply Forall_map.
  rewrite (exchange_sides_Permutation inst).
  eapply Forall_impl; [exact Hpts|]. intros pt Hpt Hinv. cbn in *.
  rewrite (zero_invisible_convention _ Hinv), flip_x_length, Hpt. reflexivity.
Qed.

(** X10. kpts_flip keeps, instance by instance, the number of visible
    keypoints. *)
Theorem kpts_flip_keeps_visible_count (kps : RandomFlip.keypoint_array)
    (img_shape : list Z) (width : Z) :
  RandomFlip.well_shaped kps ->
  (17 <= RandomFlip.k_num kps)%nat -> (3 <= RandomFlip.k_dim kps)%nat ->
  img_shape !! 1%nat = Some width ->
  exists flipped,
    RandomFlip.kpts_flip kps img_shape = Done flipped /\
    map RandomFlip.visible_count (RandomFlip.k_data flipped)
      = map RandomFlip.visible_count (RandomFlip.k_data kps).
Proof.
  intros Hshape Hk Hdim Hw. eexists. split.
  { apply kpts_flip_keypoint_wise; eassumption. }
  cbn. rewrite map_map. apply map_ext_Forall.
  eapply Forall_impl; [exact Hshape|]. intros inst [_ Hpts]. cbn.
  unfold RandomFlip.visible_count.
  rewrite <- (filter_length_Permutation _ _ _ (exchange_sides_Permutation inst)).
  assert (Hpts' : Forall (fun pt => length pt = RandomFlip.k_dim kps)
                    (RandomFlip.exchange_sides inst)).
  { rewrite (exchange_sides_Permutation inst). exact Hpts. }
  induction Hpts' as [|pt pts Hpt _ IH]; [reflexivity|].
  cbn. rewrite keypoint_flip_invisible by lia.
  destruct (RandomFlip.invisible pt); cbn; rewrite IH; reflexivity.
Qed.

Lemma kpts_flip_keeps_coco_convention_witness :
  exists flipped,
    RandomFlip.kpts_flip RandomFlip.profile_person [50; 100; 3] = Done flipped /\
    RandomFlip.k_num flipped = 17%nat /\
    RandomFlip.k_dim flipped = 3%nat /\
    RandomFlip.well_shaped flipped /\
    Forall (Forall (fun pt =>
                      RandomFlip.invisible pt = true ->
                      pt = replicate 3 RandomFlip.zero))
      (RandomFlip.k_data flipped).
Proof.
  refine (kpts_flip_keeps_coco_convention RandomFlip.profile_person
            [50; 100; 3] 100 _ _ _ _).
  - repeat constructor.
  - cbn. lia.
  - cbn. lia.
  - reflexivity.
Defined.

Lemma kpts_flip_keeps_visible_count_witness :
  exists flipped,
    RandomFlip.kpts_flip RandomFlip.profile_person [50; 100; 3] = Done flipped /\
    map RandomFlip.visible_count (RandomFlip.k_data flipped) = [2%nat].
Proof.
  refine (kpts_flip_keeps_visible_count RandomFlip.profile_person
            [50; 100; 3] 100 _ _ _ _).
  - repeat constructor.
  - cbn. lia.
  - cbn. lia.
  - reflexivity.
Defined.

(** The profile person flipped in an image 100 wide: the nose moves to
    x = 49, the left eye becomes the right eye at x = 59, and there is no
    left eye any more. *)
Example kpts_flip_profile_person :
  RandomFlip.kpts_flip RandomFlip.profile_person [50; 100; 3] =
    Done {| RandomFlip.k_dtype := float32; RandomFlip.k_num := 17;
            RandomFlip.k_dim := 3;
            RandomFlip.k_data :=
              [ map (of_int float32) [49; 20; 2]
                :: [RandomFlip.zero; RandomFlip.zero; RandomFlip.zero]
                :: map (of_int float32) [59; 10; 2]
                :: replicate 14 [RandomFlip.zero; RandomFlip.zero;
                                 RandomFlip.zero] ] |}.
Proof. vm_compute. reflexivity. Qed.

Lemma keypoint_flip_twice (d : dtype) (w : Z) (pt : list float) :
  (3 <= length pt)%nat ->
  let fin p := RandomFlip.zero_invisible (RandomFlip.flip_x d w p) in
  if RandomFlip.invisible pt
  then fin (fin pt) = replicate (length pt) RandomFlip.zero
  else tail (fin (fin pt)) = tail pt.
Proof.
  intros Hlen. cbv zeta.
  destruct pt as [|x [|y [|v more]]]; cbn in Hlen; try lia.
  unfold RandomFlip.zero_invisible, RandomFlip.invisible. cbn.
  destruct (SFeqb v RandomFlip.zero) eqn:Hz; cbn.
  - rewrite length_replicate. reflexivity.
  - rewrite Hz. reflexivity.
Qed.

(** X11. Flipping twice gives back every visible keypoint except possibly for
    its x coordinate (the y coordinate, the visibility and the position
    in the instance are restored exactly), and leaves every invisible
    keypoint all zeros. *)
Theorem kpts_flip_twice (kps : RandomFlip.keypoint_array)
    (img_shape : list Z) (width : Z) :
  RandomFlip.well_shaped kps ->
  (17 <= RandomFlip.k_num kps)%nat -> (3 <= RandomFlip.k_dim kps)%nat ->
  img_shape !! 1%nat = Some width ->
  exists once twice,
    RandomFlip.kpts_flip kps img_shape = Done once /\
    RandomFlip.kpts_flip once img_shape = Done twice /\
    Forall2 (Forall2 (fun pt pt2 =>
                        if RandomFlip.invisible pt
                        then pt2 = replicate (length pt) RandomFlip.zero
                        else tail pt2 = tail pt))
      (RandomFlip.k_data kps) (RandomFlip.k_data twice).
Proof.
  intros Hshape Hk Hdim Hw. eexists _, _. split; [|split].
  - apply kpts_flip_keypoint_wise; eassumption.
  - apply kpts_flip_keypoint_wise; try eassumption.
    apply kpts_flip_well_shaped. exact Hshape.
  - cbn. rewrite map_map.
    induction Hshape as [|inst data [Hlen Hpts] _ IH]; [constructor|].
    cbn. constructor; [|exact IH].
    rewrite exchange_sides_map, map_map.
    rewrite exchange_sides_involutive by lia.
    clear Hlen. induction Hpts as [|pt pts Hpt _ IHpts]; [constructor|].
    cbn. constructor; [|exact IHpts].
    apply (keypoint_flip_twice (RandomFlip.k_dtype kps) width pt). lia.
Qed.

Lemma kpts_flip_twice_witness :
  exists once twice,
    RandomFlip.kpts_flip RandomFlip.profile_person [50; 100; 3] = Done once /\
    RandomFlip.kpts_flip once [50; 100; 3] = Done twice /\
    Forall2 (Forall2 (fun pt pt2 =>
                        if RandomFlip.invisible pt
                        then pt2 = replicate (length pt) RandomFlip.zero
                        else tail pt2 = tail pt))
      (RandomFlip.k_data RandomFlip.profile_person) (RandomFlip.k_data twice).
Proof.
  refine (kpts_flip_twice RandomFlip.profile_person [50; 100; 3] 100 _ _ _ _).
  - repeat constructor.
  - cbn. lia.
  - cbn. lia.
  - reflexivity.
Defined.

Lemma bbox_flip_box_by_box_witness :
  RandomFlip.bbox_flip RandomFlip.two_boxes [50; 100; 3] "horizontal" =
    Done {| RandomFlip.b_dtype := float32; RandomFlip.b_cols := 8;
            RandomFlip.b_rows :=
              [ map (of_int float32) [69; 20; 89; 40; 0; 0; 99; 49] ] |}.
Proof.
  refine (proj1 (proj1 (bbox_flip_box_by_box RandomFlip.two_boxes
                          [50; 100; 3] _ _) 100 _)).
  - repeat constructor.
  - reflexivity.
  - reflexivity.
Defined.

(** ** RandomFlip.poly_mask_flip *)

Lemma flip_polygon_row (w : Z) (n : nat) :
  forall p : list float,
    (length p <= n)%nat ->
    assign_every 2 0 p (map (mirror float64 w) (every 2 0 p))
      = Done (RandomFlip.flip_polygon_horizontal w p).
Proof.
  induction n as [|n IH]; intros p Hlen.
  - destruct p; [reflexivity | cbn in Hlen; lia].
  - destruct p as [|x [|y rest]]; try reflexivity.
    cbn. rewrite (IH rest) by (cbn in Hlen; lia). reflexivity.
Qed.

(** X14. A horizontal flip of polygon masks mirrors the x coordinate of every
    vertex (x becomes w - x - 1 in float64) and leaves every y coordinate,
    the number of vertices and the grouping into masks as they are. *)
Theorem poly_mask_flip_horizontal (poly_masks : list (list (list float)))
    (img_shape : list Z) (w : Z) :
  img_shape !! 1%nat = Some w ->
  RandomFlip.poly_mask_flip poly_masks img_shape "horizontal"
    = Done (map (map (RandomFlip.flip_polygon_horizontal w)) poly_masks).
Proof.
  intros Hw. unfold RandomFlip.poly_mask_flip.
  apply mapM_Done. apply Forall_forall. intros poly_mask _.
  apply mapM_Done. apply Forall_forall. intros p _.
  cbn. unfold tuple_item. rewrite Hw. cbn.
  apply (flip_polygon_row w (length p)). reflexivity.
Qed.

Lemma poly_mask_flip_horizontal_witness :
  RandomFlip.poly_mask_flip
    [[map (of_int float64) [10; 20; 30; 40; 50]]; []] [50; 100; 3] "horizontal"
  = Done [[map (of_int float64) [89; 20; 69; 40; 49]]; []].
Proof.
  refine (poly_mask_flip_horizontal
            [[map (of_int float64) [10; 20; 30; 40; 50]]; []] [50; 100; 3]
            100 _).
  reflexivity.
Defined.

(** X15. A vertical flip of polygon masks never succeeds when there is a
    polygon to flip: the first polygon raises AttributeError (the code
    reads the attribute [p] of the numpy module).  Without any polygon
    the masks are returned as they are, whatever the direction is, even an
    invalid one. *)
Theorem poly_mask_flip_vertical_raises (poly_masks : list (list (list float)))
    (img_shape : list Z) (direction : string) :
  (Exists (fun poly_mask => poly_mask <> []) poly_masks ->
   img_shape <> [] ->
   RandomFlip.poly_mask_flip poly_masks img_shape "vertical"
     = Fail (AttributeError "module 'numpy' has no attribute 'p'")) /\
  (Forall (fun poly_mask => poly_mask = []) poly_masks ->
   RandomFlip.poly_mask_flip poly_masks img_shape direction = Done poly_masks).
Proof.
  split.
  - intros Hex Hshape. unfold RandomFlip.poly_mask_flip.
    destruct img_shape as [|h shape]; [congruence|].
    induction poly_masks as [|poly_mask poly_masks IH]; [inversion Hex|].
    destruct poly_mask as [|p poly_mask]; [|reflexivity].
    cbn. inversion Hex as [? ? Hne|? ? Hrest]; subst; [congruence|].
    cbn in IH. rewrite (IH Hrest). reflexivity.
  - intros Hall. unfold RandomFlip.poly_mask_flip.
    induction Hall as [|poly_mask poly_masks -> _ IH]; [reflexivity|].
    cbn. cbn in IH. rewrite IH. reflexivity.
Qed.

Lemma poly_mask_flip_vertical_raises_witness :
  RandomFlip.poly_mask_flip
    [[]; [map (of_int float64) [10; 20; 30; 40]]] [50; 100; 3] "vertical"
  = Fail (AttributeError "module 'numpy' has no attribute 'p'").
Proof.
  refine (proj1 (poly_mask_flip_vertical_raises
                   [[]; [map (of_int float64) [10; 20; 30; 40]]]
                   [50; 100; 3] "vertical") _ _).
  - right. left. discriminate.
  - discriminate.
Defined.

(** ** Albu.mapper *)

Lemma keys_set_old {V : Type} (u : Albu.dict V) (k : string) (v : V) :
  k ∈ Albu.keys u -> Albu.keys (Albu.set u k v) = Albu.keys u.
Proof.
  induction u as [|[k' v'] u IH]; cbn; [intros H; inversion H|]. intros Hin.
  destruct (String.eqb_spec k' k) as [->|Hne]; cbn; [reflexivity|].
  f_equal. apply IH. apply elem_of_cons in Hin as [?|?]; [congruence | assumption].
Qed.

Lemma set_fresh {V : Type} (u : Albu.dict V) (k : string) (v : V) :
  k ∉ Albu.keys u -> Albu.set u k v = (u ++ [(k, v)])%list.
Proof.
  induction u as [|[k' v'] u IH]; intros Hn; cbn; [reflexivity|].
  cbn in Hn. apply not_elem_of_cons in Hn as [Hne Hn].
  destruct (String.eqb_spec k' k) as [->|_]; [congruence|].
  rewrite IH; [reflexivity | exact Hn].
Qed.

Lemma keys_set_new {V : Type} (u : Albu.dict V) (k : string) (v : V) :
  k ∉ Albu.keys u ->
  Albu.keys (Albu.set u k v) = (Albu.keys u ++ [k])%list.
Proof.
  intros Hn. rewrite (set_fresh u k v Hn). unfold Albu.keys.
  rewrite map_app. reflexivity.
Qed.

Lemma get_of_key {V : Type} (d : Albu.dict V) (k : string) :
  k ∈ Albu.keys d -> exists v, Albu.get d k = Some v.
Proof.
  induction d as [|[k' v'] d IH]; cbn; [intros H; inversion H|].
  intros Hin. destruct (String.eqb_spec k' k) as [->|Hne]; [eauto|].
  apply elem_of_cons in Hin as [?|Hin]; [congruence | exact (IH Hin)].
Qed.

Lemma get_of_item {V : Type} (d : Albu.dict V) (k : string) (v : V) :
  NoDup (Albu.keys d) -> (k, v) ∈ d -> Albu.get d k = Some v.
Proof.
  induction d as [|[k' v'] d IH]; cbn; [intros _ H; inversion H|].
  intros Hnd Hin. apply NoDup_cons in Hnd as [Hk' Hnd].
  apply elem_of_cons in Hin as [[= <- <-]|Hin].
  - rewrite String.eqb_refl. reflexivity.
  - destruct (String.eqb_spec k' k) as [->|Hne]; [|exact (IH Hnd Hin)].
    exfalso. apply Hk'. apply list_elem_of_In. apply list_elem_of_In in Hin.
    exact (in_map fst _ _ Hin).
Qed.

Lemma get_None {V : Type} (d : Albu.dict V) (k : string) :
  k ∉ Albu.keys d -> Albu.get d k = None.
Proof.
  induction d as [|[k' v'] d IH]; cbn; [reflexivity|]. intros Hn.
  apply not_elem_of_cons in Hn as [Hne Hn].
  destruct (String.eqb_spec k' k) as [->|_]; [congruence | exact (IH Hn)].
Qed.

(** mapper never raises, keeps no key twice and files every entry under
    the renamed key of some key of [d]. *)
Lemma mapper_loop_keys {V : Type} (d : Albu.dict V) (keymap : Albu.dict string)
    (ks : list string) :
  (forall k, k ∈ ks -> k ∈ Albu.keys d) ->
  forall u : Albu.dict V,
    exists d',
      Albu.mapper_loop d keymap u ks = Done d' /\
      (NoDup (Albu.keys u) -> NoDup (Albu.keys d')) /\
      (forall k', k' ∈ Albu.keys d' <->
                  k' ∈ Albu.keys u \/
                  k' ∈ map (fun k => default k (Albu.get keymap k)) ks).
Proof.
  induction ks as [|k ks IH]; intros Hincl u.
  - exists u. cbn. split; [reflexivity|]. split; [tauto|].
    intros k'. rewrite elem_of_nil. tauto.
  - destruct (get_of_key d k) as [v Hv]; [apply Hincl; left|].
    cbn [Albu.mapper_loop]. rewrite Hv.
    destruct (IH (fun x Hx => Hincl x (list_elem_of_further _ _ _ Hx))
                (Albu.set u (default k (Albu.get keymap k)) v))
      as (d' & Hd' & Hnd & Hkeys).
    exists d'. split; [exact Hd'|].
    destruct (decide (default k (Albu.get keymap k) ∈ Albu.keys u))
      as [Hin|Hn].
    + rewrite (keys_set_old u _ v Hin) in Hnd, Hkeys.
      split; [exact Hnd|]. intros k'. rewrite Hkeys. cbn [map].
      rewrite elem_of_cons. split; [tauto|]. intros [?|[->|?]]; tauto.
    + rewrite (keys_set_new u _ v Hn) in Hnd, Hkeys. split.
      * intros Hu. apply Hnd. apply NoDup_app.
        split; [exact Hu|]. split; [|apply NoDup_singleton].
        intros x Hx Hx'. apply list_elem_of_singleton in Hx'. congruence.
      * intros k'. rewrite Hkeys, elem_of_app, list_elem_of_singleton.
        cbn [map]. rewrite elem_of_cons. tauto.
Qed.

(** X16. mapper always returns.  The dict it returns never has more entries
    than [d]; it has as many when no two keys of [d] are renamed to the
    same key, and fewer as soon as two are: then an entry is lost. *)
Theorem mapper_entries {V : Type} (d : Albu.dict V) (keymap : Albu.dict string) :
  let rename k := default k (Albu.get keymap k) in
  exists d',
    Albu.mapper d keymap = Done d' /\
    (length d' <= length d)%nat /\
    (NoDup (map rename (Albu.keys d)) -> length d' = length d) /\
    (forall k1 k2,
       k1 ∈ Albu.keys d -> k2 ∈ Albu.keys d -> k1 <> k2 ->
       rename k1 = rename k2 -> (length d' < length d)%nat).
Proof.
  cbv zeta. unfold Albu.mapper.
  destruct (mapper_loop_keys d keymap (Albu.keys d) (fun x Hx => Hx) [])
    as (d' & Hd' & Hnd & Hkeys).
  specialize (Hnd (NoDup_nil_2)).
  set (renamed := map (fun k => default k (Albu.get keymap k)) (Albu.keys d)) in *.
  assert (Hincl : Albu.keys d' ⊆+ renamed).
  { apply NoDup_submseteq; [exact Hnd|]. intros k' Hk'.
    apply Hkeys in Hk' as [Hk'|Hk']; [inversion Hk' | exact Hk']. }
  assert (Hlen : length renamed = length d).
  { unfold renamed, Albu.keys. rewrite !length_map. reflexivity. }
  assert (Hlen' : length (Albu.keys d') = length d').
  { unfold Albu.keys. apply length_map. }
  pose proof (submseteq_length _ _ Hincl) as Hle.
  exists d'. split; [exact Hd'|]. split; [lia|]. split.
  - intros Hrn.
    assert (Hincl' : renamed ⊆+ Albu.keys d').
    { apply NoDup_submseteq; [exact Hrn|]. intros k' Hk'. apply Hkeys. now right. }
    pose proof (submseteq_length _ _ Hincl'). lia.
  - intros k1 k2 H1 H2 Hne Heq.
    destruct (Nat.lt_ge_cases (length d') (length d)) as [Hlt|Hge]; [exact Hlt|].
    exfalso.
    assert (Hrn : NoDup renamed).
    { rewrite <- (submseteq_length_Permutation _ _ Hincl) by lia. exact Hnd. }
    clear - Hrn H1 H2 Hne Heq. unfold renamed in Hrn.
    induction (Albu.keys d) as [|k ks IH]; [inversion H1|].
    cbn in Hrn. apply NoDup_cons in Hrn as [Hk Hrn].
    apply elem_of_cons in H1 as [->|H1]; apply elem_of_cons in H2 as [->|H2].
    + congruence.
    + apply Hk. rewrite Heq. apply list_elem_of_In.
      apply (in_map (fun k => default k (Albu.get keymap k))).
      apply list_elem_of_In. exact H2.
    + apply Hk. rewrite <- Heq. apply list_elem_of_In.
      apply (in_map (fun k => default k (Albu.get keymap k))).
      apply list_elem_of_In. exact H1.
    + exact (IH H1 H2 Hrn).
Qed.

Lemma mapper_entries_witness :
  exists d' : Albu.dict Z,
    Albu.mapper [("img", 1); ("image", 2); ("gt_labels", 3)]
      Albu.default_keymap = Done d' /\
    (length d' < 3)%nat.
Proof.
  destruct (mapper_entries [("img", 1); ("image", 2); ("gt_labels", 3)]
              Albu.default_keymap) as (d' & Hd' & _ & _ & Hlost).
  exists d'. split; [exact Hd'|].
  apply (Hlost "img" "image").
  - left.
  - right. left.
  - discriminate.
  - reflexivity.
Defined.

Lemma get_Some_item {V : Type} (d : Albu.dict V) (k : string) (v : V) :
  Albu.get d k = Some v -> (k, v) ∈ d.
Proof.
  induction d as [|[k' v'] d IH]; cbn; [discriminate|].
  destruct (String.eqb_spec k' k) as [->|Hne].
  - intros [= ->]. left.
  - intros H. right. exact (IH H).
Qed.

Lemma NoDup_map_inv {A B : Type} (f : A -> B) (l : list A) :
  NoDup (map f l) -> NoDup l.
Proof. exact (NoDup_fmap_1 f l). Qed.

Lemma mapper_loop_renames {V : Type} (d : Albu.dict V)
    (keymap : Albu.dict string) :
  let rename k := default k (Albu.get keymap k) in
  let ren (item : string * V) := (rename item.1, item.2) in
  NoDup (map rename (Albu.keys d)) ->
  forall d2 d1 : Albu.dict V,
    d = (d1 ++ d2)%list ->
    Albu.mapper_loop d keymap (map ren d1) (Albu.keys d2) = Done (map ren d).
Proof.
  cbv zeta. intros Hrn.
  pose proof (NoDup_map_inv _ _ Hrn) as Hnd.
  induction d2 as [|[k v] d2 IH]; intros d1 Hd.
  - rewrite app_nil_r in Hd. subst d1. reflexivity.
  - cbn [Albu.keys map fst Albu.mapper_loop].
    rewrite (get_of_item d k v Hnd).
    2:{ rewrite Hd. apply elem_of_app. right. left. }
    rewrite set_fresh.
    + specialize (IH (d1 ++ [(k, v)])%list).
      rewrite map_app in IH. apply IH. rewrite <- app_assoc. exact Hd.
    + rewrite Hd in Hrn. unfold Albu.keys in Hrn.
      rewrite !map_app in Hrn. apply NoDup_app in Hrn as (_ & Hfresh & _).
      intros Hin. apply (Hfresh (default k (Albu.get keymap k))).
      * unfold Albu.keys in Hin. rewrite map_map in Hin. cbn in Hin.
        rewrite map_map. exact Hin.
      * left.
Qed.

(** X17. When no two keys of [d] are renamed to the same key, mapper returns
    the items of [d] in their order, each under its renamed key
    ([keymap.get(k, k)]) and with its value. *)
Theorem mapper_renames_keys {V : Type} (d : Albu.dict V)
    (keymap : Albu.dict string) :
  let rename k := default k (Albu.get keymap k) in
  NoDup (map rename (Albu.keys d)) ->
  Albu.mapper d keymap = Done (map (fun item => (rename item.1, item.2)) d).
Proof.
  cbv zeta. intros Hrn.
  exact (mapper_loop_renames d keymap Hrn d [] eq_refl).
Qed.

Lemma mapper_renames_keys_witness :
  Albu.mapper [("img", 1); ("gt_bboxes", 2); ("gt_labels", 3)]
    Albu.default_keymap
  = Done [("image", 1); ("bboxes", 2); ("gt_labels", 3)].
Proof.
  refine (mapper_renames_keys [("img", 1); ("gt_bboxes", 2); ("gt_labels", 3)]
            Albu.default_keymap _).
  apply (bool_decide_unpack _). vm_compute. exact I.
Defined.

Lemma invert_loop (keymap acc : Albu.dict string) :
  NoDup (Albu.keys acc ++ map snd keymap) ->
  foldl (fun acc '(k, v) => Albu.set acc v k) acc keymap
    = (acc ++ map (fun item => (item.2, item.1)) keymap)%list.
Proof.
  revert acc. induction keymap as [|[k v] keymap IH]; intros acc Hnd.
  - cbn. rewrite app_nil_r. reflexivity.
  - cbn [foldl map snd fst] in *.
    assert (Hfresh : v ∉ Albu.keys acc).
    { apply NoDup_app in Hnd as (_ & Hd & _). intros Hin.
      apply (Hd v Hin). left. }
    rewrite (set_fresh acc v k Hfresh). rewrite IH.
    + rewrite <- app_assoc. reflexivity.
    + unfold Albu.keys in *. rewrite map_app. cbn. rewrite <- app_assoc.
      exact Hnd.
Qed.

Lemma invert_swaps (keymap : Albu.dict string) :
  NoDup (map snd keymap) ->
  Albu.invert keymap = map (fun item => (item.2, item.1)) keymap.
Proof. intros Hnd. exact (invert_loop keymap [] Hnd). Qed.

(** Renaming back undoes renaming, key by key. *)
Lemma rename_back (keymap : Albu.dict string) (k : string) :
  NoDup (map snd keymap) ->
  (k ∉ Albu.keys keymap -> k ∉ map snd keymap) ->
  let rename k := default k (Albu.get keymap k) in
  let back k := default k (Albu.get (Albu.invert keymap) k) in
  back (rename k) = k.
Proof.
  intros Hvals Hk. cbv zeta. rewrite (invert_swaps keymap Hvals).
  destruct (Albu.get keymap k) as [v|] eqn:Hget; cbn.
  - rewrite (get_of_item _ v k); [reflexivity| |].
    + unfold Albu.keys. rewrite map_map. cbn. exact Hvals.
    + apply get_Some_item in Hget. apply list_elem_of_In.
      apply list_elem_of_In in Hget.
      exact (in_map (fun item : string * string => (item.2, item.1)) _ _ Hget).
  - rewrite get_None; [reflexivity|].
    unfold Albu.keys. rewrite map_map. cbn. apply Hk.
    intros Hin. apply get_of_key in Hin as [v Hv]. congruence.
Qed.

(** X18. [mapper] with a keymap, then [mapper] with the inverted keymap, as
    Albu.__call__ does around the augmentation, gives back the dict it
    started from, provided the keymap sends no two keys to the same key
    and no key of the dict that the keymap leaves alone is the new name of
    another key. *)
Theorem mapper_round_trip {V : Type} (d : Albu.dict V)
    (keymap : Albu.dict string) :
  NoDup (Albu.keys d) ->
  NoDup (map snd keymap) ->
  (forall k, k ∈ Albu.keys d -> k ∉ Albu.keys keymap -> k ∉ map snd keymap) ->
  exists d',
    Albu.mapper d keymap = Done d' /\
    Albu.mapper d' (Albu.invert keymap) = Done d.
Proof.
  intros Hnd Hvals Hfree.
  set (rename := fun k => default k (Albu.get keymap k)).
  set (back := fun k => default k (Albu.get (Albu.invert keymap) k)).
  assert (Hback : Forall (fun k => back (rename k) = k) (Albu.keys d)).
  { apply Forall_forall. intros k Hk.
    apply (rename_back keymap k Hvals (Hfree k Hk)). }
  assert (Hkeys : map back (map rename (Albu.keys d)) = Albu.keys d).
  { rewrite map_map. rewrite <- (map_id (Albu.keys d)) at 2.
    apply map_ext_Forall. exact Hback. }
  assert (Hrn : NoDup (map rename (Albu.keys d))).
  { apply (NoDup_map_inv back). rewrite Hkeys. exact Hnd. }
  assert (Hk1 : Albu.keys (map (fun item : string * V => (rename item.1, item.2)) d)
                = map rename (Albu.keys d)).
  { unfold Albu.keys. rewrite !map_map. reflexivity. }
  assert (Hitems : map (fun item : string * V => (back item.1, item.2))
                     (map (fun item : string * V => (rename item.1, item.2)) d)
                   = d).
  { rewrite map_map. rewrite <- (map_id d) at 2. apply map_ext_Forall.
    unfold Albu.keys in Hback. apply Forall_map in Hback.
    eapply Forall_impl; [exact Hback|]. intros [k v] Hk. cbn in *.
    rewrite Hk. reflexivity. }
  exists (map (fun item => (rename item.1, item.2)) d). split.
  - exact (mapper_loop_renames d keymap Hrn d [] eq_refl).
  - rewrite <- Hitems at 2.
    refine (mapper_loop_renames
              (map (fun item : string * V => (rename item.1, item.2)) d)
              (Albu.invert keymap) _ _ [] eq_refl).
    fold back. rewrite Hk1, Hkeys. exact Hnd.
Qed.

Lemma mapper_round_trip_witness :
  exists d' : Albu.dict Z,
    Albu.mapper [("img", 1); ("gt_bboxes", 2); ("gt_labels", 3)]
      Albu.default_keymap = Done d' /\
    Albu.mapper d' (Albu.invert Albu.default_keymap)
      = Done [("img", 1); ("gt_bboxes", 2); ("gt_labels", 3)].
Proof.
  refine (mapper_round_trip [("img", 1); ("gt_bboxes", 2); ("gt_labels", 3)]
            Albu.default_keymap _ _ _).
  - apply (bool_decide_unpack _). vm_compute. exact I.
  - apply (bool_decide_unpack _). vm_compute. exact I.
  - intros k Hk _ Hv. cbn in Hk, Hv.
    rewrite !elem_of_cons, elem_of_nil in Hk, Hv.
    destruct Hk as [->|[->|[->|[]]]];
      repeat destruct Hv as [Hv|Hv]; first [discriminate Hv | exact Hv].
Defined.

(** ** The scale selection of Resize *)

(** X19. With a generator that draws within the range asked for,
    random_select returns one of the scales it is given, together with
    the index of that scale in the list. *)
Theorem random_select_returns_listed_scale {G : Type}
    (randint : Z -> Z -> G -> res Z * G) (img_scales : list (Z * Z)) (g : G) :
  Resize.randint_in_range randint ->
  img_scales <> [] ->
  exists img_scale scale_idx g',
    Resize.random_select G randint img_scales g
      = (Done (img_scale, Some scale_idx), g') /\
    0 <= scale_idx < Z.of_nat (length img_scales) /\
    img_scales !! Z.to_nat scale_idx = Some img_scale.
Proof.
  intros Hrand Hne. unfold Resize.random_select.
  destruct (Hrand 0 (Z.of_nat (length img_scales)) g) as (r & g' & Hr & Hrange).
  { destruct img_scales; [congruence | cbn; lia]. }
  rewrite Hr. unfold list_item.
  destruct (Z.leb_spec 0 r) as [_|]; [|lia].
  destruct (lookup_lt_is_Some_2 img_scales (Z.to_nat r)) as [s Hs]; [lia|].
  rewrite Hs. exists s, r, g'. cbn. repeat split; try lia. exact Hs.
Qed.

Lemma counter_randint_in_range : Resize.randint_in_range Resize.counter_randint.
Proof.
  intros low high g Hlt. unfold Resize.counter_randint.
  destruct (Z.ltb_spec low high) as [_|]; [|lia].
  eexists _, _. split; [reflexivity|].
  pose proof (Z.mod_pos_bound g (high - low)). lia.
Qed.

Lemma random_select_returns_listed_scale_witness :
  exists img_scale scale_idx g',
    Resize.random_select Z Resize.counter_randint
      [(1333, 640); (1333, 800); (1000, 600)] 7
      = (Done (img_scale, Some scale_idx), g') /\
    0 <= scale_idx < 3 /\
    [(1333, 640); (1333, 800); (1000, 600)] !! Z.to_nat scale_idx
      = Some img_scale.
Proof.
  refine (random_select_returns_listed_scale Resize.counter_randint
            [(1333, 640); (1333, 800); (1000, 600)] 7
            counter_randint_in_range _).
  discriminate.
Defined.

(** X20. With a generator that draws within the range asked for, random_sample
    on two scales returns a long edge between the smaller and the larger
    of the two long edges given, and a short edge between the smaller and
    the larger of the two short edges given. *)
Theorem random_sample_within_given_edges {G : Type}
    (randint : Z -> Z -> G -> res Z * G) (s1 s2 : Z * Z) (g : G) :
  Resize.randint_in_range randint ->
  let long1 := Z.max s1.1 s1.2 in
  let long2 := Z.max s2.1 s2.2 in
  let short1 := Z.min s1.1 s1.2 in
  let short2 := Z.min s2.1 s2.2 in
  exists long_edge short_edge g',
    Resize.random_sample G randint [s1; s2] g
      = (Done ((long_edge, short_edge), None), g') /\
    Z.min long1 long2 <= long_edge <= Z.max long1 long2 /\
    Z.min short1 short2 <= short_edge <= Z.max short1 short2.
Proof.
  intros Hrand. cbv zeta. unfold Resize.random_sample. cbn.
  destruct (Hrand (Z.min (Z.max s1.1 s1.2) (Z.max s2.1 s2.2))
              (Z.max (Z.max s1.1 s1.2) (Z.max s2.1 s2.2) + 1) g)
    as (long_edge & g' & Hl & Hlr); [lia|].
  rewrite Hl.
  destruct (Hrand (Z.min (Z.min s1.1 s1.2) (Z.min s2.1 s2.2))
              (Z.max (Z.min s1.1 s1.2) (Z.min s2.1 s2.2) + 1) g')
    as (short_edge & g'' & Hs & Hsr); [lia|].
  rewrite Hs. exists long_edge, short_edge, g''.
  split; [reflexivity|]. lia.
Qed.

Lemma random_sample_within_given_edges_witness :
  exists long_edge short_edge g',
    Resize.random_sample Z Resize.counter_randint [(1333, 640); (800, 1333)] 5
      = (Done ((long_edge, short_edge), None), g') /\
    1333 <= long_edge <= 1333 /\
    640 <= short_edge <= 800.
Proof.
  exact (random_sample_within_given_edges Resize.counter_randint
           (1333, 640) (800, 1333) 5 counter_randint_in_range).
Defined.

(** X21. A Resize in 'range' mode given three or more scales, or none, is
    accepted by __init__ and then fails in _random_scale, with
    AssertionError and before anything is drawn. *)
Theorem resize_range_mode_needs_two_scales {G : Type}
    (randint : Z -> Z -> G -> res Z * G) (random_sample_draw : G -> float * G)
    (scales : list (Z * Z)) (keep_ratio : bool) (g : G) :
  length scales <> 1%nat -> length scales <> 2%nat ->
  exists self,
    Resize.init (Some (Resize.scale_list scales)) "range" None keep_ratio
      = Done self /\
    Resize.random_scale G randint random_sample_draw self g
      = (Fail AssertionError, g).
Proof.
  intros H1 H2. eexists. split; [reflexivity|].
  unfold Resize.random_scale, Resize.random_sample. cbn.
  destruct (Nat.eqb_spec (length scales) 1) as [|_]; [contradiction|].
  destruct (Nat.eqb_spec (length scales) 2) as [|_]; [contradiction|].
  reflexivity.
Qed.

Lemma resize_range_mode_needs_two_scales_witness :
  exists self,
    Resize.init (Some (Resize.scale_list [(1333, 640); (1333, 720); (1333, 800)]))
      "range" None true = Done self /\
    Resize.random_scale Z Resize.counter_randint Resize.counter_random_sample
      self 0 = (Fail AssertionError, 0).
Proof.
  refine (resize_range_mode_needs_two_scales Resize.counter_randint
            Resize.counter_random_sample
            [(1333, 640); (1333, 720); (1333, 800)] true 0 _ _);
    discriminate.
Defined.


(** ** kpts_flip on arrays with too few keypoints *)

Lemma swap_loop_fails (k : nat) (data : list (list (list float)))
    (pre : list (string * string)) (ids : list (nat * nat))
    (lkp rkp : string) (lid rid : nat) (post : list (string * string)) :
  Forall (fun inst => length inst = k) data ->
  Forall2 (fun '(lkp, rkp) '(lid, rid) =>
             RandomFlip.index lkp RandomFlip.keypoints = Done lid /\
             RandomFlip.index rkp RandomFlip.keypoints = Done rid /\
             (lid < k)%nat /\ (rid < k)%nat) pre ids ->
  RandomFlip.index lkp RandomFlip.keypoints = Done lid ->
  RandomFlip.index rkp RandomFlip.keypoints = Done rid ->
  (k <= rid)%nat ->
  forall G : list (list float) -> list (list float),
    RandomFlip.swap_loop k data (map G data) (pre ++ (lkp, rkp) :: post)
      = Fail IndexError.
Proof.
  intros Hdata Hpre Hl Hr Hk.
  induction Hpre as [|[lkp' rkp'] [lid' rid'] pre ids H _ IH]; intros G.
  - cbn [app RandomFlip.swap_loop]. rewrite Hl, Hr. cbn [mbind res_bind].
    unfold RandomFlip.column. destruct (decide (rid < k)%nat); [lia|].
    reflexivity.
  - destruct H as (Hl' & Hr' & Hlid & Hrid).
    cbn [app RandomFlip.swap_loop]. rewrite Hl', Hr'. cbn [mbind res_bind].
    rewrite (column_of_instances k rid' data Hrid Hdata). cbn [mbind res_bind].
    rewrite (set_column_of_instances k lid' G
               (fun o => default [] (o !! rid')) data Hlid).
    cbn [mbind res_bind].
    rewrite (column_of_instances k lid' data Hlid Hdata). cbn [mbind res_bind].
    rewrite (set_column_of_instances k rid'
               (fun o => <[lid' := default [] (o !! rid')]> (G o))
               (fun o => default [] (o !! lid')) data Hrid).
    cbn [mbind res_bind]. apply IH.
Qed.

Ltac fails_at j :=
  match goal with
  | fails_at_pair := _ |- _ =>
      refine (fails_at_pair j _ _ _ _ (fun o => o));
      [ cbn; repeat constructor; lia | reflexivity | reflexivity | cbn; lia ]
  end.

(** X12. A keypoint array with fewer than 17 keypoints per instance is
    rejected with IndexError, also when it holds no instance at all. *)
Theorem kpts_flip_needs_17_keypoints (kps : RandomFlip.keypoint_array)
    (img_shape : list Z) (width : Z) :
  Forall (fun inst => length inst = RandomFlip.k_num kps) (RandomFlip.k_data kps) ->
  (RandomFlip.k_num kps < 17)%nat ->
  img_shape !! 1%nat = Some width ->
  RandomFlip.kpts_flip kps img_shape = Fail IndexError.
Proof.
  intros Hdata Hk Hw. unfold RandomFlip.kpts_flip, tuple_item.
  rewrite Hw. cbn [mbind res_bind].
  destruct kps as [d k dim data]. cbn [RandomFlip.k_num RandomFlip.k_data] in *.
  rewrite <- (map_id data) at 2.
  pose (fails_at_pair := fun j : nat =>
          swap_loop_fails k data
            (take j RandomFlip.keypoint_flip_map)
            (take j RandomFlip.flip_positions)
            (nth j RandomFlip.keypoint_flip_map ("", "")).1
            (nth j RandomFlip.keypoint_flip_map ("", "")).2
            (nth j RandomFlip.flip_positions (0, 0)%nat).1
            (nth j RandomFlip.flip_positions (0, 0)%nat).2
            (drop (S j) RandomFlip.keypoint_flip_map) Hdata).
  assert (Hsplit : forall n : nat,
            (n < 8)%nat -> (2 * n < k)%nat \/ n = 0%nat -> (k <= 2 * n + 2)%nat ->
            RandomFlip.swap_loop k data (map (fun o => o) data)
              RandomFlip.keypoint_flip_map = Fail IndexError).
  { intros n Hn Hlow Hhigh.
    destruct n as [|[|[|[|[|[|[|[|n]]]]]]]];
      [fails_at 0%nat|fails_at 1%nat|fails_at 2%nat|fails_at 3%nat
      |fails_at 4%nat|fails_at 5%nat|fails_at 6%nat|fails_at 7%nat|lia]. }
  rewrite (Hsplit ((k - 1) / 2)%nat); [reflexivity | | |].
  - apply Nat.Div0.div_lt_upper_bound. lia.
  - destruct k as [|k]; [now right|]. left.
    pose proof (Nat.div_mod_eq (S k - 1) 2).
    pose proof (Nat.mod_upper_bound (S k - 1) 2). lia.
  - pose proof (Nat.div_mod_eq (k - 1) 2).
    pose proof (Nat.mod_upper_bound (k - 1) 2). lia.
Qed.

Lemma kpts_flip_needs_17_keypoints_witness :
  RandomFlip.kpts_flip
    {| RandomFlip.k_dtype := float32; RandomFlip.k_num := 5;
       RandomFlip.k_dim := 3;
       RandomFlip.k_data :=
         [replicate 5 (map (of_int float32) [10; 20; 2])] |}
    [50; 100; 3] = Fail IndexError.
Proof.
  refine (kpts_flip_needs_17_keypoints _ [50; 100; 3] 100 _ _ _).
  - repeat constructor.
  - cbn. lia.
  - reflexivity.
Defined.

(** ** kpts_flip exchanges left and right *)

Lemma exchange_sides_lookup {A : Type} (inst : list A) (lid rid : nat) :
  (17 <= length inst)%nat ->
  (lid, rid) ∈ RandomFlip.flip_positions ->
  RandomFlip.exchange_sides inst !! lid = inst !! rid /\
  RandomFlip.exchange_sides inst !! rid = inst !! lid.
Proof.
  intros Hlen Hpair.
  do 17 (destruct inst as [|? inst]; [cbn in Hlen; lia|]).
  unfold RandomFlip.flip_positions in Hpair.
  repeat (apply elem_of_cons in Hpair as [[= -> ->]|Hpair];
          [split; reflexivity|]).
  inversion Hpair.
Qed.

Lemma lookup_map {A B : Type} (f : A -> B) (l : list A) (i : nat) :
  map f l !! i = f <$> l !! i.
Proof. exact (list_lookup_fmap f l i). Qed.

(** X13. In what kpts_flip returns, each instance has at the position of a
    left keypoint the flipped right keypoint of the input and at the
    position of a right keypoint the flipped left one, for the eight pairs
    of keypoint_flip_map; the nose stays in its place.  Flipped means: x
    replaced by width - x - 1, then all entries zeroed if the visibility
    is 0. *)
Theorem kpts_flip_exchanges_left_and_right (kps : RandomFlip.keypoint_array)
    (img_shape : list Z) (width : Z) :
  RandomFlip.well_shaped kps ->
  (17 <= RandomFlip.k_num kps)%nat -> (3 <= RandomFlip.k_dim kps)%nat ->
  img_shape !! 1%nat = Some width ->
  let flipped_keypoint pt :=
    RandomFlip.zero_invisible
      (RandomFlip.flip_x (RandomFlip.k_dtype kps) width pt) in
  exists flipped,
    RandomFlip.kpts_flip kps img_shape = Done flipped /\
    Forall2 (fun inst out =>
               out !! 0%nat = flipped_keypoint <$> inst !! 0%nat /\
               forall lid rid,
                 (lid, rid) ∈ RandomFlip.flip_positions ->
                 out !! lid = flipped_keypoint <$> inst !! rid /\
                 out !! rid = flipped_keypoint <$> inst !! lid)
      (RandomFlip.k_data kps) (RandomFlip.k_data flipped).
Proof.
  intros Hshape Hk Hdim Hw. cbv zeta. eexists. split.
  { apply kpts_flip_keypoint_wise; eassumption. }
  cbn. induction Hshape as [|inst data [Hlen _] _ IH]; [constructor|].
  cbn. constructor; [|exact IH]. split.
  - rewrite lookup_map. destruct inst; reflexivity.
  - intros lid rid Hpair. rewrite !lookup_map.
    destruct (exchange_sides_lookup inst lid rid) as [-> ->];
      [lia | exact Hpair | split; reflexivity].
Qed.

Lemma kpts_flip_exchanges_left_and_right_witness :
  exists flipped,
    RandomFlip.kpts_flip RandomFlip.profile_person [50; 100; 3] = Done flipped /\
    Forall2 (fun inst out =>
               out !! 0%nat =
                 (fun pt => RandomFlip.zero_invisible
                              (RandomFlip.flip_x float32 100 pt)) <$> inst !! 0%nat /\
               forall lid rid,
                 (lid, rid) ∈ RandomFlip.flip_positions ->
                 out !! lid =
                   (fun pt => RandomFlip.zero_invisible
                                (RandomFlip.flip_x float32 100 pt)) <$> inst !! rid /\
                 out !! rid =
                   (fun pt => RandomFlip.zero_invisible
                                (RandomFlip.flip_x float32 100 pt)) <$> inst !! lid)
      (RandomFlip.k_data RandomFlip.profile_person) (RandomFlip.k_data flipped).
Proof.
  refine (kpts_flip_exchanges_left_and_right RandomFlip.profile_person
            [50; 100; 3] 100 _ _ _ _).
  - repeat constructor.
  - cbn. lia.
  - cbn. lia.
  - reflexivity.
Defined.
